(** * parse_curl_domains: host extraction from a curl command line, filtered by TLD

    Shallow embedding of [InitialAccess/parse_curl_domains.py] and the
    properties its specification states about it.

    Modelling conventions.
    - A Python [str] is a [string]: a sequence of 8-bit characters.  The model
      is exact on ASCII text.  Characters above 127 are carried along
      unchanged: they are caseless and are not white space (Python itself
      case-maps and classifies non-ASCII code points as well).
    - A Python [set] of strings is a [gset string].
    - The [while] loop of [token_extract_domains] is kept as written: a loop
      body over the pair (index, set) and an iteration bounded by the number
      of tokens, which is shown to be enough.
    - Library calls whose code is not part of the repository
      ([urllib.parse.urlparse], the [idna] codec, [shlex.split]) are
      parameters of the development; an exception raised by one of them is
      the result [None]. *)

From Stdlib Require Import Ascii String Bool Arith Lia.
From stdpp Require Import gmap strings list sorting.

Open Scope string_scope.

#[local] Set Warnings "-clear-no-such-hyp".

(** ** Python string primitives *)

Module Py.

(** [c in s] for a one-character [c]. *)
Fixpoint contains (c : ascii) (s : string) : bool :=
  match s with
  | "" => false
  | String x s' => Ascii.eqb x c || contains c s'
  end.

(** [str.isspace] on one ASCII character; also the class [\s] of [re]. *)
Definition is_space (c : ascii) : bool :=
  let n := nat_of_ascii c in
  ((9 <=? n) && (n <=? 13) || (28 <=? n) && (n <=? 32))%nat.

Definition is_upper (c : ascii) : bool :=
  let n := nat_of_ascii c in ((65 <=? n) && (n <=? 90))%nat.

Definition lower_char (c : ascii) : ascii :=
  if is_upper c then ascii_of_nat (nat_of_ascii c + 32) else c.

(** [s.lower()]. *)
Fixpoint lower (s : string) : string :=
  match s with
  | "" => ""
  | String c s' => String (lower_char c) (lower s')
  end.

(** [s.split(sep, maxsplit)] for a one-character separator. *)
Fixpoint split (sep : ascii) (maxsplit : nat) (s : string) : list string :=
  match s with
  | "" => [""]
  | String c s' =>
      match maxsplit with
      | O => [s]
      | S m =>
          if Ascii.eqb c sep then "" :: split sep m s'
          else match split sep maxsplit s' with
               | p :: ps => String c p :: ps
               | [] => [String c ""]
               end
      end
  end.

(** [s.split(sep)]: no bound on the number of splits. *)
Fixpoint split_all (sep : ascii) (s : string) : list string :=
  match s with
  | "" => [""]
  | String c s' =>
      if Ascii.eqb c sep then "" :: split_all sep s'
      else match split_all sep s' with
           | p :: ps => String c p :: ps
           | [] => [String c ""]
           end
  end.

(** [s.rsplit(sep, maxsplit)]: the splits are counted from the right. *)
Fixpoint rsplit (sep : ascii) (maxsplit : nat) (s : string) : list string :=
  match s with
  | "" => [""]
  | String c s' =>
      let parts := rsplit sep maxsplit s' in
      if Ascii.eqb c sep && (List.length parts <=? maxsplit)%nat
      then "" :: parts
      else match parts with
           | p :: ps => String c p :: ps
           | [] => [String c ""]
           end
  end.

(** [s.lstrip(chars)], [s.rstrip(chars)], [s.strip(chars)]: every leading
    (trailing) character that belongs to [chars] is removed. *)
Fixpoint lstrip (chars : string) (s : string) : string :=
  match s with
  | "" => ""
  | String c s' => if contains c chars then lstrip chars s' else s
  end.

Fixpoint rstrip (chars : string) (s : string) : string :=
  match s with
  | "" => ""
  | String c s' =>
      match rstrip chars s' with
      | "" => if contains c chars then "" else String c ""
      | r => String c r
      end
  end.

Definition strip (chars : string) (s : string) : string :=
  rstrip chars (lstrip chars s).

(** [s.strip()]: white space is removed on both sides. *)
Fixpoint lstrip_ws (s : string) : string :=
  match s with
  | "" => ""
  | String c s' => if is_space c then lstrip_ws s' else s
  end.

Fixpoint rstrip_ws (s : string) : string :=
  match s with
  | "" => ""
  | String c s' =>
      match rstrip_ws s' with
      | "" => if is_space c then "" else String c ""
      | r => String c r
      end
  end.

Definition strip_ws (s : string) : string := rstrip_ws (lstrip_ws s).

(** [s.split()]: the non-empty maximal runs of non-space characters. *)
Fixpoint split_ws_aux (cur : string) (s : string) : list string :=
  match s with
  | "" => if String.eqb cur "" then [] else [cur]
  | String c s' =>
      if is_space c
      then (if String.eqb cur "" then split_ws_aux "" s'
            else cur :: split_ws_aux "" s')
      else split_ws_aux (cur +:+ String c "") s'
  end.

Definition split_ws (s : string) : list string := split_ws_aux "" s.


Fixpoint ends_with_char (c : ascii) (s : string) : bool :=
  match s with
  | "" => false
  | String x "" => Ascii.eqb x c
  | String _ s' => ends_with_char c s'
  end.

(** [l[k]] on a list of strings that is known to be long enough. *)
Definition item (l : list string) (k : nat) : string := nth k l "".

(** [l[-1]] and [l[-2]]. *)
Definition item_last (l : list string) : string := List.last l "".
Definition item_penultimate (l : list string) : string :=
  nth (List.length l - 2) l "".

End Py.

(** ** The host normalizer *)

(** [normalize_host(netloc)], lines 64 to 72. *)
Definition normalize_host (netloc : string) : string :=
  let netloc :=
    if Py.contains "@" netloc then Py.item (Py.split "@" 1 netloc) 1
    else netloc in
  let netloc := Py.strip "[]" netloc in
  let netloc := Py.item (Py.split ":" 1 netloc) 0 in
  Py.lower netloc.

(** ** The regular expressions of the program

    The three patterns are modelled by the scanners they denote under
    Python's leftmost, greedy, backtracking semantics.  In each pattern the
    character classes that follow one another are disjoint, so giving back
    characters of a greedy run never turns a failed attempt into a match:
    every run is taken maximal. *)

Module Re.

(** The double quote character. *)
Definition dquote : ascii := ascii_of_nat 34.

(** The class [[A-Za-z0-9-]]. *)
Definition is_label_char (c : ascii) : bool :=
  let n := nat_of_ascii c in
  ((65 <=? n) && (n <=? 90) || (97 <=? n) && (n <=? 122)
   || (48 <=? n) && (n <=? 57) || (n =? 45))%nat.

Definition head_is_label (s : string) : bool :=
  match s with
  | String c _ => is_label_char c
  | "" => false
  end.

(** The longest prefix of [s] made of label characters and of dots that are
    directly followed by a label character. *)
Fixpoint dotted_run (s : string) : string :=
  match s with
  | "" => ""
  | String c s' =>
      if is_label_char c then String c (dotted_run s')
      else if Ascii.eqb c "." && head_is_label s' then String c (dotted_run s')
      else ""
  end.

(** A match of [DOMAIN_RE = ([A-Za-z0-9-]+(?:\.[A-Za-z0-9-]+)+)] that starts
    at the first character of [s]. *)
Definition domain_match (s : string) : option string :=
  if head_is_label s && Py.contains "." (dotted_run s)
  then Some (dotted_run s) else None.

(** [DOMAIN_RE.findall(s)]: the matches from left to right, each search
    resuming where the previous match ended ([skip] characters are still
    covered by it). *)
Fixpoint findall_from (skip : nat) (s : string) : list string :=
  match s with
  | "" => []
  | String _ s' =>
      match skip with
      | S k => findall_from k s'
      | O =>
          match domain_match s with
          | Some m => m :: findall_from (String.length m - 1) s'
          | None => findall_from 0 s'
          end
      end
  end.

Definition domain_findall (s : string) : list string := findall_from 0 s.

(** The class of the captured header value: any character but a semicolon,
    a comma, white space, a double quote and a single quote. *)
Definition is_value_char (c : ascii) : bool :=
  negb (Py.is_space c || Ascii.eqb c ";" || Ascii.eqb c ","
        || Ascii.eqb c dquote || Ascii.eqb c "'").

Fixpoint take_while (p : ascii -> bool) (s : string) : string :=
  match s with
  | "" => ""
  | String c s' => if p c then String c (take_while p s') else ""
  end.

Fixpoint drop_while (p : ascii -> bool) (s : string) : string :=
  match s with
  | "" => ""
  | String c s' => if p c then drop_while p s' else s
  end.

(** What the Host pattern requires after the four letters: optional white
    space, a colon, optional white space and a non-empty run of value
    characters, which is group 1. *)
Definition host_value (r : string) : option string :=
  match drop_while Py.is_space r with
  | String c r' =>
      if Ascii.eqb c ":" then
        let v := take_while is_value_char (drop_while Py.is_space r') in
        if String.eqb v "" then None else Some v
      else None
  | "" => None
  end.

(** A match of the Host pattern, letter case ignored, that starts at the
    first character of [s]; the result is group 1. *)
Definition host_match (s : string) : option string :=
  match s with
  | String c1 (String c2 (String c3 (String c4 r))) =>
      if String.eqb (Py.lower (String c1 (String c2 (String c3 (String c4 "")))))
                    "host"
      then host_value r
      else None
  | _ => None
  end.

(** [re.search] for the Host pattern with [re.IGNORECASE]: group 1 of the
    match with the leftmost starting point, [None] when there is none. *)
Fixpoint host_search (s : string) : option string :=
  match host_match s with
  | Some v => Some v
  | None =>
      match s with
      | "" => None
      | String _ s' => host_search s'
      end
  end.

(** The length of a match of [\s*,\s*] at the first character of [s]. *)
Definition comma_match (s : string) : option nat :=
  match drop_while Py.is_space s with
  | String c r =>
      if Ascii.eqb c "," then
        Some (String.length (take_while Py.is_space s) + 1
              + String.length (take_while Py.is_space r))
      else None
  | "" => None
  end.

(** [re.split(r'\s*,\s*', s)]. *)
Fixpoint split_from (skip : nat) (s : string) : list string :=
  match s with
  | "" => [""]
  | String c s' =>
      match skip with
      | S k => split_from k s'
      | O =>
          match comma_match s with
          | Some n => "" :: split_from (n - 1) s'
          | None =>
              match split_from 0 s' with
              | p :: ps => String c p :: ps
              | [] => [String c ""]
              end
          end
      end
  end.

Definition split_commas (s : string) : list string := split_from 0 s.

(** [re.escape(s)]: a backslash goes before each character that is special
    in a pattern. *)
Definition is_special (c : ascii) : bool :=
  let n := nat_of_ascii c in
  Py.contains c "()[]{}?*+-|^$\.&~# " || ((9 <=? n) && (n <=? 13))%nat.

Fixpoint escape (s : string) : string :=
  match s with
  | "" => ""
  | String c s' =>
      if is_special c then String "\" (String c (escape s'))
      else String c (escape s')
  end.

End Re.

(** ** Library calls

    [urlparse_netloc u] is [urlparse(u).netloc], [idna_decode d] is
    [d.encode('utf-8').decode('idna')] and [shlex_split c] is
    [shlex.split(c)]; each is [None] when the call raises. *)

Class Library := {
  urlparse_netloc : string -> option string;
  idna_decode : string -> option string;
  shlex_split : string -> option (list string)
}.

(** A small instance for running the model on plain inputs: the network
    location is the text between the two slashes after the scheme and the
    next slash, question mark or hash sign; no name decodes; a command
    line is cut at white space. *)
Definition is_path_start (c : ascii) : bool :=
  Ascii.eqb c "/" || Ascii.eqb c "?" || Ascii.eqb c "#".

Definition plain_netloc (u : string) : option string :=
  match Py.split ":" 1 u with
  | [_; String "/" (String "/" r)] =>
      Some (Re.take_while (fun c => negb (is_path_start c)) r)
  | _ => Some ""
  end.

Definition plain_library : Library := {|
  urlparse_netloc := plain_netloc;
  idna_decode := fun _ => None;
  shlex_split := fun c => Some (Py.split_ws c)
|}.

(** ** The domain extractor *)

(** [t.startswith(('http://','https://'))]. *)
Definition is_url (t : string) : bool :=
  String.prefix "http://" t || String.prefix "https://" t.

(** [t in (...)] for a tuple of strings. *)
Definition one_of (t : string) (l : list string) : bool :=
  existsb (String.eqb t) l.

(** [for d in hosts: domains.add(normalize_host(d))]. *)
Definition add_hosts (hosts : list string) (domains : gset string) : gset string :=
  foldl (fun acc d => {[normalize_host d]} ∪ acc) domains hosts.

(** The header rule, lines 101 to 107. *)
Definition add_header (hdr : string) (domains : gset string) : gset string :=
  match Re.host_search hdr with
  | Some v => {[normalize_host v]} ∪ domains
  | None => add_hosts (Re.domain_findall hdr) domains
  end.

(** The loop over the comma separated parts of a [--resolve] or
    [--connect-to] value, lines 112 to 116 and 121 to 125. *)
Definition add_resolve (val : string) (domains : gset string) : gset string :=
  foldl (fun acc part =>
           let host := Py.item (Py.split ":" 1 part) 0 in
           if String.eqb host "" then acc else {[normalize_host host]} ∪ acc)
        domains (Re.split_commas val).

(** The value rule of a URL-bearing flag, lines 91 to 96. *)
Definition add_flag_url `{Library} (u : string) (domains : gset string) : gset string :=
  if is_url u then
    match urlparse_netloc u with
    | Some netloc => {[normalize_host netloc]} ∪ domains
    | None => domains
    end
  else domains.

(** The direct URL rule, lines 81 to 87. *)
Definition add_direct_url `{Library} (t : string) (domains : gset string) : gset string :=
  if is_url t then
    match urlparse_netloc t with
    | Some netloc =>
        if String.eqb netloc "" then domains
        else {[normalize_host netloc]} ∪ domains
    | None => domains
    end
  else domains.

(** One iteration of the [while] loop, lines 78 to 132, on the state
    [(i, domains)].  The index is read again by each [if], as in the
    source. *)
Definition loop_body `{Library} (tokens : list string)
    (st : nat * gset string) : nat * gset string :=
  let t := Py.item tokens st.1 in
  let st := (st.1, add_direct_url t st.2) in
  let st :=
    if one_of t ["--url"; "--url*"; "-I"; "--head"]
       && (st.1 + 1 <? List.length tokens)%nat
    then (st.1 + 1, add_flag_url (Py.item tokens (st.1 + 1)) st.2)
    else st in
  let st :=
    if one_of t ["-H"; "--header"] && (st.1 + 1 <? List.length tokens)%nat
    then (st.1 + 1, add_header (Py.item tokens (st.1 + 1)) st.2)
    else st in
  let st :=
    if String.eqb t "--resolve" && (st.1 + 1 <? List.length tokens)%nat
    then (st.1 + 1, add_resolve (Py.item tokens (st.1 + 1)) st.2)
    else st in
  let st :=
    if String.eqb t "--connect-to" && (st.1 + 1 <? List.length tokens)%nat
    then (st.1 + 1, add_resolve (Py.item tokens (st.1 + 1)) st.2)
    else st in
  let st := (st.1, add_hosts (Re.domain_findall t) st.2) in
  (st.1 + 1, st.2).

(** [while i < len(tokens): body], run for at most [fuel] iterations. *)
Fixpoint while_loop `{Library} (fuel : nat) (tokens : list string)
    (st : nat * gset string) : nat * gset string :=
  match fuel with
  | O => st
  | S fuel' =>
      if (st.1 <? List.length tokens)%nat
      then while_loop fuel' tokens (loop_body tokens st)
      else st
  end.

(** [token_extract_domains(tokens)], lines 74 to 134.  Each iteration
    advances the index, so [len(tokens)] iterations reach the end. *)
Definition token_extract_domains `{Library} (tokens : list string) : gset string :=
  (while_loop (List.length tokens) tokens (0, ∅)).2.

(** What one token contributes when the scan is at it, and whether it
    takes the token after it as its value: the loop body read off a list
    [t :: rest] instead of an index. *)
Definition flag_takes_value (t : string) : bool :=
  one_of t ["--url"; "--url*"; "-I"; "--head"; "-H"; "--header";
            "--resolve"; "--connect-to"].

Definition value_hosts `{Library} (t v : string) : gset string :=
  if one_of t ["--url"; "--url*"; "-I"; "--head"] then add_flag_url v ∅
  else if one_of t ["-H"; "--header"] then add_header v ∅
  else if one_of t ["--resolve"; "--connect-to"] then add_resolve v ∅
  else ∅.

Definition token_hosts `{Library} (t : string) : gset string :=
  add_direct_url t ∅ ∪ add_hosts (Re.domain_findall t) ∅.

Fixpoint scan `{Library} (skip : bool) (tokens : list string) : gset string :=
  match tokens with
  | [] => ∅
  | t :: rest =>
      if skip then scan false rest
      else
        match rest with
        | v :: _ =>
            if flag_takes_value t
            then token_hosts t ∪ value_hosts t v ∪ scan true rest
            else token_hosts t ∪ scan false rest
        | [] => token_hosts t
        end
  end.

(** ** The TLD filter *)

(** The test made on one domain by the loop of [filter_by_tlds], lines 142
    to 159: [true] when the domain is added to [out]. *)
Definition keeps `{Library} (tlds : gset string) (d : string) : bool :=
  if String.eqb d "" then false
  else
    let parts := Py.rsplit "." 2 d in
    let last := Py.lower (Py.item_last parts) in
    if bool_decide (last ∈ tlds) then true
    else if String.prefix "xn--" last then
      match idna_decode d with
      | Some decoded =>
          let last_decoded := Py.lower (Py.item_last (Py.rsplit "." 1 decoded)) in
          bool_decide (last_decoded ∈ tlds)
      | None => false
      end
    else false.

(** [filter_by_tlds(domains, tlds)], lines 136 to 160. *)
Definition filter_by_tlds `{Library} (domains tlds : gset string) : gset string :=
  set_fold (fun d out => if keeps tlds d then {[d]} ∪ out else out) ∅ domains.

(** ** The pattern synthesizer *)

(** [sorted(l)] on a list of strings: Python compares strings character by
    character, by code point. *)
Definition sorted (l : list string) : list string := merge_sort String.le l.

(** The label taken from one domain, lines 169 to 173. *)
Definition wildcard_label (d : string) : string :=
  let parts := Py.split_all "." d in
  if (2 <=? List.length parts)%nat then Py.item_penultimate parts
  else Py.item parts 0.

(** [suggest_wildcards(domains)], lines 162 to 174. *)
Definition suggest_wildcards (domains : gset string) : list string :=
  let labels : gset string :=
    set_fold (fun d labels => {[wildcard_label d]} ∪ labels) ∅ domains in
  sorted ((fun lbl => lbl +:+ ".*") <$> elements labels).

(** [build_regex_for_label(label)], lines 176 to 182. *)
Definition build_regex_for_label (label : string) : string :=
  "(^|\.)" +:+ Re.escape label +:+ "\.[A-Za-z0-9.-]+$".

(** ** The command-line driver *)

(** The lines of a TLD file as [load_tlds_from_file] reads them, lines 39
    to 47. *)
Definition load_tlds (lines : list string) : gset string :=
  foldl (fun tlds line =>
           let s := Py.lower (Py.strip_ws line) in
           if String.eqb s "" || String.prefix "#" s then tlds
           else {[s]} ∪ tlds)
        ∅ lines.

(** The parsed arguments; an absent option is [None]. *)
Record Args := {
  arg_cmd : option string;
  arg_tld_file : option string;
  arg_fetch_tlds : bool;
  arg_save_tlds : option string;
  arg_wildcards : bool;
  arg_regexes : bool;
  arg_show_all : bool
}.

(** What the run reads from outside: standard input, the lines of the
    files that exist, the result of the download ([None] when it raises)
    and whether writing the downloaded list succeeds. *)
Record World := {
  stdin_text : string;
  file_lines : string -> option (list string);
  fetched_tlds : option (gset string);
  save_succeeds : bool
}.

(** The exit status and the lines written to standard output. *)
Record Outcome := {
  status : nat;
  stdout : list string
}.

(** Python truth value of an optional string argument. *)
Definition truthy (o : option string) : bool :=
  match o with
  | Some s => negb (String.eqb s "")
  | None => false
  end.

(** The three output blocks, lines 242 to 258. *)
Definition report (a : Args) (filtered : gset string) : list string :=
  (if arg_show_all a || negb (arg_wildcards a || arg_regexes a)
   then "# Matched domains (TLD filtered):"
        :: (if bool_decide (filtered = ∅) then ["# (none)"]
            else sorted (elements filtered))
   else [])
  ++ (if arg_wildcards a
      then "" :: "# Suggested wildcard patterns (label.*):"
           :: suggest_wildcards filtered
      else [])
  ++ (if arg_regexes a
      then "" :: "# Per-label regex patterns:"
           :: (build_regex_for_label
                 <$> sorted (elements
                       (set_fold (fun d acc =>
                                    if Py.contains "." d
                                    then {[Py.item_penultimate (Py.split_all "." d)]} ∪ acc
                                    else acc)
                                 (∅ : gset string) filtered)))
      else []).

(** [main()], lines 184 to 258. *)
Definition main `{Library} (a : Args) (w : World) : Outcome :=
  let curl_cmd :=
    if truthy (arg_cmd a) then default "" (arg_cmd a)
    else Py.strip_ws (stdin_text w) in
  if String.eqb curl_cmd "" then
    {| status := 1;
       stdout := ["Provide a curl command via --cmd or stdin. See --help."] |}
  else
    (* the download, lines 207 to 220: the set after it, or the exit *)
    let after_fetch : option (gset string) :=
      if arg_fetch_tlds a then
        match fetched_tlds w with
        | Some tlds =>
            if truthy (arg_save_tlds a) && negb (save_succeeds w)
               && negb (truthy (arg_tld_file a))
            then None else Some tlds
        | None => if truthy (arg_tld_file a) then Some ∅ else None
        end
      else Some ∅ in
    match after_fetch with
    | None => {| status := 1; stdout := [] |}
    | Some tlds =>
        (* the local file, lines 222 to 227 *)
        let after_file : option (gset string) :=
          if truthy (arg_tld_file a) then
            match file_lines w (default "" (arg_tld_file a)) with
            | Some lines => Some (tlds ∪ load_tlds lines)
            | None => None
            end
          else Some tlds in
        match after_file with
        | None => {| status := 1; stdout := [] |}
        | Some tlds =>
            if bool_decide (tlds = ∅) then {| status := 1; stdout := [] |}
            else
              let tokens :=
                match shlex_split curl_cmd with
                | Some ts => ts
                | None => Py.split_ws curl_cmd
                end in
              let found := token_extract_domains tokens in
              let filtered := filter_by_tlds found tlds in
              {| status := 0; stdout := report a filtered |}
        end
    end.

(** A run whose [--cmd] argument is three spaces, with a TLD file of two
    entries. *)
Definition blank_cmd_args : Args := {|
  arg_cmd := Some "   ";
  arg_tld_file := Some "tlds.txt";
  arg_fetch_tlds := false;
  arg_save_tlds := None;
  arg_wildcards := false;
  arg_regexes := false;
  arg_show_all := false
|}.

Definition tld_file_world : World := {|
  stdin_text := "";
  file_lines := fun path =>
    if String.eqb path "tlds.txt" then Some ["com"; "org"] else None;
  fetched_tlds := None;
  save_succeeds := true
|}.

(** ** Vocabulary of the specification *)

(** The text left of the first [c], and the text right of it. *)
Fixpoint before_first (c : ascii) (s : string) : string :=
  match s with
  | "" => ""
  | String x s' => if Ascii.eqb x c then "" else String x (before_first c s')
  end.

Fixpoint after_first (c : ascii) (s : string) : string :=
  match s with
  | "" => ""
  | String x s' => if Ascii.eqb x c then s' else after_first c s'
  end.

(** Removal of the user information: everything up to and including the
    first at sign, when there is one. *)
Definition drop_userinfo (raw : string) : string :=
  if Py.contains "@" raw then after_first "@" raw else raw.

(** Removal of one leading opening bracket and of one trailing closing
    bracket. *)
Definition drop_open_bracket (s : string) : string :=
  match s with
  | String "[" s' => s'
  | _ => s
  end.

Fixpoint drop_close_bracket (s : string) : string :=
  match s with
  | "" => ""
  | String "]" "" => ""
  | String c s' => String c (drop_close_bracket s')
  end.

(** The normalizer as the specification words it: one bracket is removed
    on each side. *)
Definition normalize_stated (raw : string) : string :=
  Py.lower (before_first ":"
              (drop_close_bracket (drop_open_bracket (drop_userinfo raw)))).

(** The same with every leading and trailing bracket removed. *)
Definition normalize_described (raw : string) : string :=
  Py.lower (before_first ":" (Py.strip "[]" (drop_userinfo raw))).

(** Every character of [s] satisfies [p]. *)
Fixpoint all_chars (p : ascii -> bool) (s : string) : bool :=
  match s with
  | "" => true
  | String c s' => p c && all_chars p s'
  end.

(** The labels of a domain and its last label. *)
Definition labels (d : string) : list string := Py.split_all "." d.
Definition last_label (d : string) : string := List.last (labels d) "".


(** An entry with an upper-case letter. *)
Definition has_upper (s : string) : bool := negb (all_chars (fun c => negb (Py.is_upper c)) s).

(** Strictly ascending order of strings. *)
Definition str_lt (s1 s2 : string) : Prop := Is_true (String.ltb s1 s2).

(** The flag rule, if any, that applies to a token. *)
Inductive flag_kind : Set := KUrl | KHeader | KResolve | KConnect | KNone.

Definition kind_of (t : string) : flag_kind :=
  if one_of t ["--url"; "--url*"; "-I"; "--head"] then KUrl
  else if one_of t ["-H"; "--header"] then KHeader
  else if String.eqb t "--resolve" then KResolve
  else if String.eqb t "--connect-to" then KConnect
  else KNone.


(** The first character of [s] is a value character of the Host pattern. *)
Definition head_is_value (s : string) : bool :=
  match s with
  | String c _ => Re.is_value_char c
  | "" => false
  end.

(** A character other than an at sign and a square bracket. *)
Definition plain_char (c : ascii) : bool := negb (Py.contains c "@[]").

(** The first character of [s] belongs to [chars]. *)
Definition head_in (chars : string) (s : string) : bool :=
  match s with
  | String c _ => Py.contains c chars
  | "" => false
  end.

(** The last character of [s] belongs to [chars]. *)
Fixpoint last_in (chars : string) (s : string) : bool :=
  match s with
  | "" => false
  | String c "" => Py.contains c chars
  | String _ s' => last_in chars s'
  end.

(** ** Further vocabulary *)

(** A character that the normalizer leaves in place: no at sign, no square
    bracket, no colon. *)
Definition host_char (c : ascii) : bool := negb (Py.contains c "@[]:").

(** A character other than an at sign and a square bracket (a colon is
    allowed). *)
Definition literal_char (c : ascii) : bool := negb (Py.contains c "@[]").

(** A character of a host name as the generic pattern sees it: a label
    character or a dot. *)
Definition hostname_char (c : ascii) : bool :=
  Re.is_label_char c || Ascii.eqb c ".".

(** Label characters and dots, every dot directly followed by a label
    character. *)
Fixpoint well_dotted (s : string) : bool :=
  match s with
  | "" => true
  | String c s' =>
      (Re.is_label_char c || (Ascii.eqb c "." && Re.head_is_label s'))
      && well_dotted s'
  end.

(** A dotted name: two labels or more, none of them empty, separated by
    single dots. *)
Definition dotted_name (s : string) : bool :=
  Re.head_is_label s && well_dotted s && Py.contains "." s.

(** The parts of a comma separated list once the white space that touches
    a comma is removed: on the right of the first part, on both sides of
    the parts in the middle, on the left of the last part.  A list of one
    part is left as it is. *)
Fixpoint trim_rest (l : list string) : list string :=
  match l with
  | [] => []
  | [q] => [Py.lstrip_ws q]
  | q :: qs => Py.strip_ws q :: trim_rest qs
  end.

Definition trim_parts (l : list string) : list string :=
  match l with
  | [] => []
  | [p] => [p]
  | p :: ps => Py.rstrip_ws p :: trim_rest ps
  end.

(** The number of occurrences of a character. *)
Fixpoint count_char (c : ascii) (s : string) : nat :=
  match s with
  | "" => 0
  | String x s' => (if Ascii.eqb x c then 1 else 0) + count_char c s'
  end.

(** The parsing loop of [fetch_iana_tlds], lines 56 to 62, on the lines of
    the downloaded text. *)
Definition parse_iana_lines (lines : list string) : gset string :=
  foldl (fun tlds line =>
           let line := Py.strip_ws line in
           if String.eqb line "" || String.prefix "#" line then tlds
           else {[Py.lower line]} ∪ tlds)
        ∅ lines.

(** The line as a TLD entry: trimmed and lowercased; it counts when it is
    not empty and not a comment. *)
Definition tld_entry (line : string) : string := Py.lower (Py.strip_ws line).
Definition is_entry (s : string) : bool :=
  negb (String.eqb s "" || String.prefix "#" s).

(** White space at the start and at the end of a string. *)
Definition starts_with_space (s : string) : bool :=
  match s with
  | String c _ => Py.is_space c
  | "" => false
  end.

Fixpoint ends_with_space (s : string) : bool :=
  match s with
  | "" => false
  | String c "" => Py.is_space c
  | String _ s' => ends_with_space s'
  end.

(* ================================================================== *)
(** * Properties *)

(** ** Characters *)

Ltac each_char c :=
  destruct c as [[] [] [] [] [] [] [] []]; vm_compute; try reflexivity; try discriminate; auto.

Lemma lower_char_idem c : Py.lower_char (Py.lower_char c) = Py.lower_char c.
Proof. each_char c. Qed.

Lemma lower_char_not_upper c : Py.is_upper (Py.lower_char c) = false.
Proof. each_char c. Qed.

Lemma lower_char_eqb_colon c : Ascii.eqb (Py.lower_char c) ":" = Ascii.eqb c ":".
Proof. each_char c. Qed.

Lemma lower_char_eqb_at c : Ascii.eqb (Py.lower_char c) "@" = Ascii.eqb c "@".
Proof. each_char c. Qed.

Lemma lower_char_bracket c :
  Py.contains (Py.lower_char c) "[]" = Py.contains c "[]".
Proof. each_char c. Qed.

(** ** Splitting and stripping *)

Lemma split_zero c s : Py.split c 0 s = [s].
Proof. destruct s; reflexivity. Qed.

Lemma split_nonempty c n s : Py.split c n s <> [].
Proof.
  revert n; induction s as [|x s IH]; intros n; simpl; [discriminate|].
  destruct n; [discriminate|].
  destruct (Ascii.eqb x c); [discriminate|].
  destruct (Py.split c (S n) s); discriminate.
Qed.

Lemma split_first c s : Py.item (Py.split c 1 s) 0 = before_first c s.
Proof.
  induction s as [|x s IH]; simpl; [reflexivity|].
  destruct (Ascii.eqb x c); [reflexivity|].
  unfold Py.item in *.
  destruct (Py.split c 1 s) as [|p ps] eqn:E; simpl in *.
  - exfalso. exact (split_nonempty _ _ _ E).
  - now rewrite IH.
Qed.

Lemma split_second c s :
  Py.contains c s = true -> Py.item (Py.split c 1 s) 1 = after_first c s.
Proof.
  induction s as [|x s IH]; simpl; [discriminate|].
  destruct (Ascii.eqb x c); simpl; intros Hc.
  - now rewrite split_zero.
  - unfold Py.item in *.
    destruct (Py.split c 1 s) as [|p ps] eqn:E; simpl in *.
    + exfalso. exact (split_nonempty _ _ _ E).
    + now apply IH.
Qed.

Lemma contains_before_first c s : Py.contains c (before_first c s) = false.
Proof.
  induction s as [|x s IH]; simpl; [reflexivity|].
  destruct (Ascii.eqb x c) eqn:E; simpl; [reflexivity|].
  now rewrite E.
Qed.

Lemma before_first_id c s : Py.contains c s = false -> before_first c s = s.
Proof.
  induction s as [|x s IH]; simpl; [reflexivity|].
  destruct (Ascii.eqb x c); simpl; [discriminate|].
  intros H. now rewrite IH.
Qed.

Lemma length_before_first c s :
  String.length (before_first c s) <= String.length s.
Proof.
  induction s as [|x s IH]; simpl; [lia|].
  destruct (Ascii.eqb x c); simpl; lia.
Qed.

Lemma length_after_first c s :
  Py.contains c s = true -> String.length (after_first c s) < String.length s.
Proof.
  induction s as [|x s IH]; simpl; [discriminate|].
  destruct (Ascii.eqb x c); simpl; intros H; [lia|].
  specialize (IH H). lia.
Qed.

Lemma length_lower s : String.length (Py.lower s) = String.length s.
Proof. induction s; simpl; congruence. Qed.

Lemma lower_idem s : Py.lower (Py.lower s) = Py.lower s.
Proof. induction s; simpl; [reflexivity|]. now rewrite lower_char_idem, IHs. Qed.

Lemma contains_lower_colon s : Py.contains ":" (Py.lower s) = Py.contains ":" s.
Proof. induction s; simpl; [reflexivity|]. now rewrite lower_char_eqb_colon, IHs. Qed.

Lemma contains_lower_at s : Py.contains "@" (Py.lower s) = Py.contains "@" s.
Proof. induction s; simpl; [reflexivity|]. now rewrite lower_char_eqb_at, IHs. Qed.

Lemma lower_no_upper s : has_upper (Py.lower s) = false.
Proof.
  unfold has_upper. apply negb_false_iff.
  induction s; simpl; [reflexivity|].
  now rewrite lower_char_not_upper, IHs.
Qed.


Lemma rstrip_head chars s :
  head_in chars s = false -> head_in chars (Py.rstrip chars s) = false.
Proof.
  destruct s as [|c s]; simpl; [reflexivity|].
  intros H. destruct (Py.rstrip chars s); simpl; [now rewrite H|exact H].
Qed.

Lemma lstrip_head chars s : head_in chars (Py.lstrip chars s) = false.
Proof.
  induction s as [|c s IH]; simpl; [reflexivity|].
  destruct (Py.contains c chars) eqn:E; [exact IH|]. simpl. exact E.
Qed.

Lemma strip_head chars s : head_in chars (Py.strip chars s) = false.
Proof. apply rstrip_head, lstrip_head. Qed.

Lemma lstrip_id chars s : head_in chars s = false -> Py.lstrip chars s = s.
Proof. destruct s as [|c s]; simpl; [reflexivity|]. now intros ->. Qed.

Lemma length_lstrip chars s :
  String.length (Py.lstrip chars s) <= String.length s.
Proof.
  induction s as [|c s IH]; simpl; [lia|].
  destruct (Py.contains c chars); simpl; lia.
Qed.

Lemma length_rstrip chars s :
  String.length (Py.rstrip chars s) <= String.length s.
Proof.
  induction s as [|c s IH]; simpl; [lia|].
  destruct (Py.rstrip chars s); simpl in *.
  - destruct (Py.contains c chars); simpl; lia.
  - lia.
Qed.


Lemma rstrip_id chars s : last_in chars s = false -> Py.rstrip chars s = s.
Proof.
  induction s as [|c s IH]; simpl; [reflexivity|].
  destruct s as [|c' s'].
  - simpl. now intros ->.
  - intros H. rewrite (IH H). reflexivity.
Qed.

Lemma rstrip_shorter chars s :
  last_in chars s = true -> String.length (Py.rstrip chars s) < String.length s.
Proof.
  induction s as [|c s IH]; simpl; [discriminate|].
  destruct s as [|c' s'].
  - simpl. intros ->. simpl. lia.
  - intros H. specialize (IH H).
    destruct (Py.rstrip chars (String c' s')) eqn:E.
    + destruct (Py.contains c chars); simpl in *; lia.
    + simpl in *. lia.
Qed.

Lemma last_in_brackets s :
  last_in "[]" s = Py.ends_with_char "[" s || Py.ends_with_char "]" s.
Proof.
  induction s as [|c s IH]; [reflexivity|].
  destruct s as [|c' s']; [|exact IH].
  simpl. now rewrite orb_false_r.
Qed.

Lemma head_in_before_first chars c s :
  head_in chars s = false -> head_in chars (before_first c s) = false.
Proof.
  destruct s as [|x s]; simpl; [reflexivity|].
  destruct (Ascii.eqb x c); simpl; auto.
Qed.

Lemma head_in_lower_brackets s : head_in "[]" (Py.lower s) = head_in "[]" s.
Proof. destruct s; [reflexivity|]. apply lower_char_bracket. Qed.

(** ** The host normalizer *)

Lemma normalize_host_unfold raw : normalize_host raw = normalize_described raw.
Proof.
  unfold normalize_host, normalize_described, drop_userinfo.
  rewrite split_first. f_equal. f_equal. f_equal.
  destruct (Py.contains "@" raw) eqn:E; [|reflexivity].
  now apply split_second.
Qed.

Lemma normalize_host_no_colon raw : Py.contains ":" (normalize_host raw) = false.
Proof.
  rewrite normalize_host_unfold. unfold normalize_described.
  rewrite contains_lower_colon. apply contains_before_first.
Qed.


Lemma normalize_host_head raw : head_in "[]" (normalize_host raw) = false.
Proof.
  rewrite normalize_host_unfold. unfold normalize_described.
  rewrite head_in_lower_brackets. apply head_in_before_first, strip_head.
Qed.


Lemma normalize_host_lower raw : Py.lower (normalize_host raw) = normalize_host raw.
Proof. rewrite normalize_host_unfold. apply lower_idem. Qed.

Lemma length_normalize_described_le s :
  String.length (Py.lower (before_first ":" (Py.strip "[]" s))) <= String.length s.
Proof.
  rewrite length_lower.
  pose proof (length_before_first ":" (Py.strip "[]" s)).
  pose proof (length_rstrip "[]" (Py.lstrip "[]" s)).
  pose proof (length_lstrip "[]" s).
  unfold Py.strip in *. lia.
Qed.

Lemma normalize_host_fixed_iff y :
  head_in "[]" y = false -> Py.contains ":" y = false -> Py.lower y = y ->
  normalize_host y = y <->
  Py.contains "@" y = false /\ last_in "[]" y = false.
Proof.
  intros Hh Hc Hl. rewrite normalize_host_unfold.
  unfold normalize_described, drop_userinfo. split.
  - intros Heq. destruct (Py.contains "@" y) eqn:Ea.
    + exfalso. pose proof (length_after_first "@" y Ea).
      pose proof (length_normalize_described_le (after_first "@" y)).
      rewrite Heq in *. lia.
    + split; [reflexivity|].
      destruct (last_in "[]" y) eqn:El; [|reflexivity]. exfalso.
      unfold Py.strip in Heq. rewrite (lstrip_id _ _ Hh) in Heq.
      pose proof (rstrip_shorter _ _ El).
      pose proof (length_before_first ":" (Py.rstrip "[]" y)).
      pose proof (length_lower (before_first ":" (Py.rstrip "[]" y))).
      rewrite Heq in *. lia.
  - intros [Ea El]. rewrite Ea. unfold Py.strip.
    rewrite (lstrip_id _ _ Hh), (rstrip_id _ _ El), (before_first_id _ _ Hc).
    exact Hl.
Qed.

Lemma app_cons c (s t : string) : String c s +:+ t = String c (s +:+ t).
Proof. reflexivity. Qed.

Lemma app_empty (t : string) : "" +:+ t = t.
Proof. reflexivity. Qed.

Lemma lstrip_split chars s :
  exists l, s = l +:+ Py.lstrip chars s
            /\ all_chars (fun c => Py.contains c chars) l = true.
Proof.
  induction s as [|c s [l [IH1 IH2]]]; simpl.
  - exists "". auto.
  - destruct (Py.contains c chars) eqn:E.
    + exists (String c l). simpl. rewrite E, IH2, app_cons.
      split; [now f_equal|reflexivity].
    + exists "". auto.
Qed.

Lemma rstrip_split chars s :
  exists r, s = Py.rstrip chars s +:+ r
            /\ all_chars (fun c => Py.contains c chars) r = true
            /\ last_in chars (Py.rstrip chars s) = false.
Proof.
  induction s as [|c s [r [IH1 [IH2 IH3]]]]; simpl.
  - exists "". auto.
  - destruct (Py.rstrip chars s) as [|c' t] eqn:E.
    + destruct (Py.contains c chars) eqn:Ec.
      * exists (String c r). rewrite app_empty in *. simpl.
        rewrite Ec, IH2. subst s. auto.
      * exists r. rewrite app_cons, app_empty in *. simpl.
        rewrite Ec. subst s. auto.
    + exists r. split; [|split; [exact IH2|exact IH3]].
      rewrite app_cons. now f_equal.
Qed.

(** What [strip] does: the stripped characters form a prefix and a suffix
    of the input, and the middle neither starts nor ends with one. *)
Lemma strip_split chars s :
  exists l r, s = l +:+ Py.strip chars s +:+ r
    /\ all_chars (fun c => Py.contains c chars) l = true
    /\ all_chars (fun c => Py.contains c chars) r = true
    /\ head_in chars (Py.strip chars s) = false
    /\ last_in chars (Py.strip chars s) = false.
Proof.
  destruct (lstrip_split chars s) as [l [Hl1 Hl2]].
  destruct (rstrip_split chars (Py.lstrip chars s)) as [r [Hr1 [Hr2 Hr3]]].
  exists l, r. unfold Py.strip. repeat split; auto.
  - now rewrite <- Hr1.
  - apply strip_head.
Qed.

(** C7 (amended).  For every input string [raw], [normalize_host raw] is
    computed by discarding everything up to and including the first at sign
    when [raw] contains one; then removing every leading and every trailing
    character that is an opening or a closing square bracket, so that the
    rest neither starts nor ends with a bracket; then keeping only the part
    left of the first colon; then lowercasing.  The function is total and
    its result may be the empty string. *)
Theorem normalize_host_steps (raw : string) :
  (exists l mid r,
      (if Py.contains "@" raw then after_first "@" raw else raw)
      = l +:+ mid +:+ r
      /\ all_chars (fun c => Py.contains c "[]") l = true
      /\ all_chars (fun c => Py.contains c "[]") r = true
      /\ head_in "[]" mid = false
      /\ last_in "[]" mid = false
      /\ normalize_host raw = Py.lower (before_first ":" mid))
  /\ normalize_host raw = normalize_described raw
  /\ normalize_host ":443" = "".
Proof.
  split; [|split; [apply normalize_host_unfold|reflexivity]].
  destruct (strip_split "[]" (drop_userinfo raw)) as [l [r [H1 [H2 [H3 [H4 H5]]]]]].
  exists l, (Py.strip "[]" (drop_userinfo raw)), r.
  repeat split; auto. apply normalize_host_unfold.
Qed.

(** C7 (as stated) fails: two brackets on each side are both removed, where
    the stated steps remove one. *)
Lemma normalize_host_not_stated :
  normalize_host "[[a]]" <> normalize_stated "[[a]]".
Proof. vm_compute. discriminate. Qed.

Lemma normalize_host_idempotent_iff (x : string) :
  normalize_host (normalize_host x) = normalize_host x
  <-> Py.contains "@" (normalize_host x) = false
      /\ Py.ends_with_char "[" (normalize_host x) = false
      /\ Py.ends_with_char "]" (normalize_host x) = false.
Proof.
  rewrite normalize_host_fixed_iff.
  - rewrite last_in_brackets, orb_false_iff. tauto.
  - apply normalize_host_head.
  - apply normalize_host_no_colon.
  - apply normalize_host_lower.
Qed.

Lemma all_chars_before_first p c s :
  all_chars p s = true -> all_chars p (before_first c s) = true.
Proof.
  induction s as [|x s IH]; simpl; [reflexivity|].
  intros H. apply andb_true_iff in H as [Hx Hs].
  destruct (Ascii.eqb x c); simpl; [reflexivity|]. now rewrite Hx, IH.
Qed.

Lemma plain_char_lower c : plain_char (Py.lower_char c) = plain_char c.
Proof. each_char c. Qed.

Lemma all_plain_lower s : all_chars plain_char (Py.lower s) = all_chars plain_char s.
Proof. induction s; simpl; [reflexivity|]. now rewrite plain_char_lower, IHs. Qed.

Lemma plain_char_spec c :
  plain_char c = true ->
  Ascii.eqb c "@" = false /\ Py.contains c "[]" = false.
Proof. each_char c. Qed.

Lemma all_plain_facts s :
  all_chars plain_char s = true ->
  Py.contains "@" s = false /\ head_in "[]" s = false /\ last_in "[]" s = false.
Proof.
  induction s as [|c s IH]; simpl; [auto|].
  intros H. apply andb_true_iff in H as [Hc Hs].
  destruct (plain_char_spec c Hc) as [Hat Hbr].
  destruct (IH Hs) as [H1 [_ H3]].
  rewrite Hat, H1. repeat split; [exact Hbr|].
  destruct s; [exact Hbr|exact H3].
Qed.

(** C3 (amended).  Normalizing a second time changes nothing for every
    host string whose normalized form contains no at sign and does not end
    with a square bracket; this is the case of every host string that,
    once its user information is removed, contains no at sign and no
    square bracket. *)
Theorem normalize_host_idempotent (x : string) :
  (Py.contains "@" (normalize_host x) = false ->
   Py.ends_with_char "[" (normalize_host x) = false ->
   Py.ends_with_char "]" (normalize_host x) = false ->
   normalize_host (normalize_host x) = normalize_host x)
  /\ (all_chars plain_char (drop_userinfo x) = true ->
      normalize_host (normalize_host x) = normalize_host x).
Proof.
  split.
  - intros H1 H2 H3. apply normalize_host_idempotent_iff. auto.
  - intros Hp. apply normalize_host_fixed_iff.
    + apply normalize_host_head.
    + apply normalize_host_no_colon.
    + apply normalize_host_lower.
    + rewrite normalize_host_unfold. unfold normalize_described.
      destruct (all_plain_facts _ Hp) as [_ [Hh Hl]].
      unfold Py.strip. rewrite (lstrip_id _ _ Hh), (rstrip_id _ _ Hl).
      assert (all_chars plain_char
                (Py.lower (before_first ":" (drop_userinfo x))) = true) as Hq.
      { rewrite all_plain_lower. now apply all_chars_before_first. }
      destruct (all_plain_facts _ Hq) as [Ha [_ Hb]]. auto.
Qed.

Lemma normalize_host_idempotent_witness :
  all_chars plain_char (drop_userinfo "User:pw@Example.COM:8443") = true
  /\ normalize_host (normalize_host "User:pw@Example.COM:8443")
     = normalize_host "User:pw@Example.COM:8443".
Proof.
  split; [reflexivity|].
  exact (proj2 (normalize_host_idempotent "User:pw@Example.COM:8443") eq_refl).
Defined.

(** C3 (as stated) fails: with two at signs the first pass leaves one
    behind, which the second pass removes. *)
Lemma normalize_host_not_idempotent :
  normalize_host (normalize_host "a@b@c") <> normalize_host "a@b@c".
Proof. vm_compute. discriminate. Qed.

(** ** The domain extractor *)

Section Extractor.
Context `{L : Library}.

Lemma add_hosts_union hosts (D : gset string) :
  add_hosts hosts D = add_hosts hosts ∅ ∪ D.
Proof.
  unfold add_hosts. revert D.
  induction hosts as [|h hosts IH]; intros D; simpl.
  - set_solver.
  - rewrite IH, (IH ({[normalize_host h]} ∪ ∅)). set_solver.
Qed.

Lemma add_resolve_union val (D : gset string) :
  add_resolve val D = add_resolve val ∅ ∪ D.
Proof.
  unfold add_resolve. generalize (Re.split_commas val) as parts. intros parts.
  revert D. induction parts as [|p parts IH]; intros D; simpl.
  - set_solver.
  - destruct (String.eqb (Py.item (Py.split ":" 1 p) 0) ""); [apply IH|].
    rewrite IH, (IH ({[_]} ∪ ∅)). set_solver.
Qed.

Lemma add_header_union hdr (D : gset string) :
  add_header hdr D = add_header hdr ∅ ∪ D.
Proof.
  unfold add_header. destruct (Re.host_search hdr); [set_solver|].
  apply add_hosts_union.
Qed.

Lemma add_flag_url_union u (D : gset string) :
  add_flag_url u D = add_flag_url u ∅ ∪ D.
Proof.
  unfold add_flag_url. destruct (is_url u); [|set_solver].
  destruct (urlparse_netloc u); set_solver.
Qed.

Lemma add_direct_url_union t (D : gset string) :
  add_direct_url t D = add_direct_url t ∅ ∪ D.
Proof.
  unfold add_direct_url. destruct (is_url t); [|set_solver].
  destruct (urlparse_netloc t) as [n|]; [|set_solver].
  destruct (String.eqb n ""); set_solver.
Qed.

(** The five tests on the current token exclude one another. *)
Lemma one_of_cases t l : one_of t l = true -> In t l.
Proof.
  unfold one_of. rewrite existsb_exists. intros [x [Hin Heq]].
  apply String.eqb_eq in Heq. now subst.
Qed.

Lemma kind_tests t :
  one_of t ["--url"; "--url*"; "-I"; "--head"]
    = match kind_of t with KUrl => true | _ => false end
  /\ one_of t ["-H"; "--header"]
    = match kind_of t with KHeader => true | _ => false end
  /\ String.eqb t "--resolve"
    = match kind_of t with KResolve => true | _ => false end
  /\ String.eqb t "--connect-to"
    = match kind_of t with KConnect => true | _ => false end.
Proof.
  unfold kind_of.
  destruct (one_of t ["--url"; "--url*"; "-I"; "--head"]) eqn:E1.
  { apply one_of_cases in E1. simpl in E1.
    destruct E1 as [<-|[<-|[<-|[<-|[]]]]]; vm_compute; auto. }
  destruct (one_of t ["-H"; "--header"]) eqn:E2.
  { apply one_of_cases in E2. simpl in E2.
    destruct E2 as [<-|[<-|[]]]; vm_compute; auto. }
  destruct (String.eqb t "--resolve") eqn:E3.
  { apply String.eqb_eq in E3. subst. vm_compute; auto. }
  destruct (String.eqb t "--connect-to") eqn:E4; auto.
Qed.

Lemma flag_takes_value_kind t :
  flag_takes_value t = match kind_of t with KNone => false | _ => true end.
Proof.
  destruct (kind_tests t) as [H1 [H2 [H3 H4]]].
  unfold flag_takes_value, one_of in *. simpl in *.
  rewrite !orb_false_r in *.
  destruct (kind_of t);
    repeat match goal with
           | H : _ = false |- _ => apply orb_false_iff in H; destruct H
           end;
    repeat match goal with H : String.eqb _ _ = false |- _ => rewrite H end;
    simpl; auto.
  all: repeat match goal with
         | H : (_ || _)%bool = true |- _ => apply orb_true_iff in H; destruct H
         end;
    repeat match goal with H : String.eqb _ _ = _ |- _ => rewrite H end;
    simpl; rewrite ?orb_true_r; auto.
Qed.

Lemma value_hosts_kind t v :
  value_hosts t v =
    match kind_of t with
    | KUrl => add_flag_url v ∅
    | KHeader => add_header v ∅
    | KResolve | KConnect => add_resolve v ∅
    | KNone => ∅
    end.
Proof.
  destruct (kind_tests t) as [H1 [H2 [H3 H4]]].
  unfold value_hosts. rewrite H1, H2.
  assert (one_of t ["--resolve"; "--connect-to"]
          = match kind_of t with KResolve | KConnect => true | _ => false end) as ->.
  { unfold one_of. simpl. rewrite H3, H4. destruct (kind_of t); reflexivity. }
  destruct (kind_of t); reflexivity.
Qed.

Lemma drop_cons_inv (l : list string) i t rest :
  drop i l = t :: rest ->
  Py.item l i = t /\ List.length l = i + 1 + List.length rest
  /\ drop (i + 1) l = rest.
Proof.
  revert l. induction i as [|i IH]; intros l H.
  - destruct l; simpl in H; [discriminate|]. injection H as -> ->.
    repeat split; simpl; auto.
  - destruct l as [|x l]; simpl in H; [discriminate|].
    destruct (IH l H) as [H1 [H2 H3]]. repeat split; simpl; auto.
Qed.

(** One iteration at index [i], where the token [t] is followed by
    [rest]: the index moves by two when [t] is a flag with a value after
    it and by one otherwise, and the set receives the hosts of the token
    and of the value. *)
Lemma loop_body_step tokens i (D : gset string) t rest :
  drop i tokens = t :: rest ->
  loop_body tokens (i, D) =
    match rest with
    | v :: _ =>
        if flag_takes_value t
        then (i + 2, D ∪ token_hosts t ∪ value_hosts t v)
        else (i + 1, D ∪ token_hosts t)
    | [] => (i + 1, D ∪ token_hosts t)
    end.
Proof.
  intros Hd. destruct (drop_cons_inv _ _ _ _ Hd) as [Ht [Hlen Hrest]].
  destruct (kind_tests t) as [K1 [K2 [K3 K4]]].
  unfold loop_body. cbn [fst snd]. rewrite Ht, K1, K2, K3, K4.
  rewrite ?flag_takes_value_kind.
  unfold token_hosts.
  destruct rest as [|v rest']; rewrite ?flag_takes_value_kind, ?value_hosts_kind.
  - assert ((i + 1 <? List.length tokens)%nat = false) as Hn
        by (apply Nat.ltb_ge; simpl in Hlen; lia).
    destruct (kind_of t); cbn [fst snd andb]; rewrite ?Hn; cbn [fst snd andb];
      rewrite ?Hn; cbn [fst snd andb];
      (f_equal; rewrite (add_hosts_union _ (add_direct_url t D)),
                        (add_direct_url_union t D); set_solver).
  - assert ((i + 1 <? List.length tokens)%nat = true) as Hn
        by (apply Nat.ltb_lt; simpl in Hlen; lia).
    assert (Py.item tokens (i + 1) = v) as Hv.
    { destruct (drop_cons_inv tokens (i + 1) v rest' Hrest) as [Hv _]. exact Hv. }
    destruct (kind_of t); cbn [fst snd andb]; rewrite ?Hn; cbn [fst snd andb];
      rewrite ?Hv.
    + f_equal; [lia|].
      rewrite (add_hosts_union _ (add_flag_url v _)),
              (add_flag_url_union v (add_direct_url t D)),
              (add_direct_url_union t D). set_solver.
    + f_equal; [lia|].
      rewrite (add_hosts_union _ (add_header v _)),
              (add_header_union v (add_direct_url t D)),
              (add_direct_url_union t D). set_solver.
    + f_equal; [lia|].
      rewrite (add_hosts_union _ (add_resolve v _)),
              (add_resolve_union v (add_direct_url t D)),
              (add_direct_url_union t D). set_solver.
    + f_equal; [lia|].
      rewrite (add_hosts_union _ (add_resolve v _)),
              (add_resolve_union v (add_direct_url t D)),
              (add_direct_url_union t D). set_solver.
    + f_equal. rewrite (add_hosts_union _ (add_direct_url t D)),
              (add_direct_url_union t D). set_solver.
Qed.

Lemma drop_lt_cons (l : list string) i :
  i < List.length l -> exists t rest, drop i l = t :: rest.
Proof.
  revert l. induction i as [|i IH]; intros [|x l] H; simpl in *; try lia.
  - eauto.
  - apply IH. lia.
Qed.

(** The loop run from index [i] ends at the end of the token list, and
    adds what the list-directed scan of the remaining tokens collects. *)
Lemma while_loop_scan fuel tokens i (D : gset string) :
  i <= List.length tokens -> List.length tokens - i <= fuel ->
  while_loop fuel tokens (i, D)
  = (List.length tokens, D ∪ scan false (drop i tokens)).
Proof.
  revert i D. induction fuel as [|fuel IH]; intros i D Hi Hf.
  - assert (i = List.length tokens) as -> by lia.
    rewrite drop_all. simpl. f_equal. set_solver.
  - cbn [while_loop fst].
    destruct (i <? List.length tokens)%nat eqn:E.
    + apply Nat.ltb_lt in E.
      destruct (drop_lt_cons tokens i E) as [t [rest Hd]].
      destruct (drop_cons_inv _ _ _ _ Hd) as [_ [Hlen Hrest]].
      rewrite (loop_body_step _ _ _ _ _ Hd), Hd.
      destruct rest as [|v rest'].
      * rewrite IH by (simpl in Hlen; lia).
        rewrite Hrest. simpl. f_equal. set_solver.
      * cbn [scan]. destruct (flag_takes_value t).
        -- rewrite IH by (simpl in Hlen; lia).
           assert (drop (i + 2) tokens = rest') as ->.
           { destruct (drop_cons_inv tokens (i + 1) v rest' Hrest) as [_ [_ H]].
             replace (i + 2) with (i + 1 + 1) by lia. exact H. }
           f_equal. set_solver.
        -- rewrite IH by (simpl in Hlen; lia).
           rewrite Hrest. f_equal. set_solver.
    + apply Nat.ltb_ge in E. assert (i = List.length tokens) as -> by lia.
      rewrite drop_all. simpl. f_equal. set_solver.
Qed.

(** The bound of [len(tokens)] iterations is enough: the loop stops
    because the index has reached the end. *)
Lemma token_extract_domains_terminates tokens :
  (while_loop (List.length tokens) tokens (0, ∅)).1 = List.length tokens.
Proof. rewrite while_loop_scan by lia. reflexivity. Qed.

Lemma token_extract_domains_scan tokens :
  token_extract_domains tokens = scan false tokens.
Proof.
  unfold token_extract_domains. rewrite while_loop_scan by lia.
  simpl. set_solver.
Qed.

(** Unfolding of the scan at the head of the token list. *)
Lemma extract_cons_value t v rest :
  flag_takes_value t = true ->
  token_extract_domains (t :: v :: rest)
  = token_hosts t ∪ value_hosts t v ∪ token_extract_domains rest.
Proof.
  intros H. rewrite !token_extract_domains_scan. cbn [scan]. now rewrite H.
Qed.

Lemma extract_cons_plain t rest :
  flag_takes_value t = false ->
  token_extract_domains (t :: rest) = token_hosts t ∪ token_extract_domains rest.
Proof.
  intros H. rewrite !token_extract_domains_scan. cbn [scan]. rewrite H.
  destruct rest; [simpl; set_solver|reflexivity].
Qed.

Lemma extract_singleton t : token_extract_domains [t] = token_hosts t.
Proof. rewrite token_extract_domains_scan. reflexivity. Qed.

Lemma extract_nil : token_extract_domains [] = ∅.
Proof. reflexivity. Qed.

(** *** Every inserted string comes out of the normalizer *)

Lemma elem_of_add_hosts hosts (D : gset string) d :
  d ∈ add_hosts hosts D <-> d ∈ D \/ exists h, In h hosts /\ d = normalize_host h.
Proof.
  unfold add_hosts. revert D.
  induction hosts as [|h hosts IH]; intros D; simpl.
  - split; [auto|]. intros [?|[h [[] _]]]. assumption.
  - rewrite IH. rewrite elem_of_union, elem_of_singleton. split.
    + intros [[->|?]|[h' [? ?]]]; eauto.
    + intros [?|[h' [[->|?] ?]]]; eauto.
Qed.










(** *** Membership in the filtered set *)

Lemma elem_of_filter_by_tlds (domains tlds : gset string) d :
  d ∈ filter_by_tlds domains tlds <-> d ∈ domains /\ keeps tlds d = true.
Proof.
  unfold filter_by_tlds.
  apply (set_fold_ind_L
           (fun (out : gset string) (X : gset string) =>
              d ∈ out <-> d ∈ X /\ keeps tlds d = true)).
  - set_solver.
  - intros x X out Hx IH. destruct (keeps tlds x) eqn:E.
    + rewrite !elem_of_union, !elem_of_singleton, IH. split.
      * intros [->|[? ?]]; auto.
      * intros [[->|?] ?]; auto.
    + rewrite IH, elem_of_union, elem_of_singleton. split.
      * intros [? ?]; auto.
      * intros [[->|?] ?]; [congruence|auto].
Qed.


(** *** Flags and their value token *)

Lemma flag_token_hosts t : flag_takes_value t = true -> token_hosts t = ∅.
Proof.
  intros H. apply one_of_cases in H. simpl in H.
  destruct H as [<-|[<-|[<-|[<-|[<-|[<-|[<-|[<-|[]]]]]]]]];
    vm_compute; reflexivity.
Qed.

Lemma value_flag_takes_value t :
  one_of t ["-H"; "--header"; "--resolve"; "--connect-to"] = true ->
  flag_takes_value t = true.
Proof.
  intros H. apply one_of_cases in H. simpl in H.
  destruct H as [<-|[<-|[<-|[<-|[]]]]]; reflexivity.
Qed.

Lemma url_flag_takes_value t :
  one_of t ["--url"; "--url*"; "-I"; "--head"] = true ->
  flag_takes_value t = true.
Proof.
  intros H. apply one_of_cases in H. simpl in H.
  destruct H as [<-|[<-|[<-|[<-|[]]]]]; reflexivity.
Qed.

Lemma lookup_drop_cons (l : list string) i t :
  l !! i = Some t -> drop i l = t :: drop (S i) l.
Proof.
  revert l. induction i as [|i IH]; intros [|x l] H; simpl in *;
    try discriminate.
  - injection H as ->. now rewrite drop_0.
  - now apply IH.
Qed.

Lemma resolve_example_hosts :
  add_resolve "example.org:443:93.184.216.34" ∅ = {["example.org"]}.
Proof. vm_compute. reflexivity. Qed.

Lemma keeps_example_org : keeps {["org"]} "example.org" = true.
Proof. vm_compute. reflexivity. Qed.

Lemma scan_suffix pre rest skip :
  exists b, scan b rest ⊆ scan skip (pre ++ rest)%list.
Proof.
  revert skip. induction pre as [|t pre IH]; intros skip.
  - exists skip. reflexivity.
  - cbn [app scan]. destruct skip; [apply IH|].
    destruct (pre ++ rest)%list as [|v l] eqn:E.
    + destruct (List.app_eq_nil _ _ E) as [_ ->]. exists false. simpl. set_solver.
    + destruct (flag_takes_value t).
      * destruct (IH true) as [b Hb]. exists b. set_solver.
      * destruct (IH false) as [b Hb]. exists b. set_solver.
Qed.

Lemma resolve_example_generic :
  "example.org" ∈ token_hosts "example.org:443:93.184.216.34".
Proof.
  unfold token_hosts. apply elem_of_union. right.
  refine (bool_decide_unpack _ _). vm_compute. exact I.
Qed.

Lemma keeps_ip_literal : keeps {["org"]} "93.184.216.34" = false.
Proof. vm_compute. reflexivity. Qed.

(** C5.  When a header flag or a resolve or connect-to flag has a token
    after it, the iteration takes that token as the value of the flag and
    moves the index past it: the set receives what the flag rule finds in
    the value and nothing else, and the next iteration starts after the
    value.  When the scan is at [--resolve] followed by
    [example.org:443:93.184.216.34], the two tokens contribute the
    candidate [example.org] alone; for every command line that contains
    these two tokens one after the other, [example.org] is in the output
    filtered by the TLD set [{org}]; the address [93.184.216.34] is in no
    output filtered by that set, and it is not even a candidate of the
    command [curl --resolve example.org:443:93.184.216.34]. *)
Theorem value_flag_consumes_token :
  (forall (tokens : list string) (i : nat) (D : gset string) (t v : string),
      one_of t ["-H"; "--header"; "--resolve"; "--connect-to"] = true ->
      tokens !! i = Some t -> tokens !! (i + 1) = Some v ->
      loop_body tokens (i, D) = (i + 2, D ∪ value_hosts t v))
  /\ (forall rest : list string,
        token_extract_domains
          ("--resolve" :: "example.org:443:93.184.216.34" :: rest)
        = {["example.org"]} ∪ token_extract_domains rest)
  /\ (forall pre post : list string,
        "example.org" ∈
          filter_by_tlds
            (token_extract_domains
               (pre ++ "--resolve" :: "example.org:443:93.184.216.34" :: post))
            {["org"]})
  /\ (forall tokens : list string,
        "93.184.216.34" ∉ filter_by_tlds (token_extract_domains tokens) {["org"]})
  /\ "93.184.216.34" ∉
       token_extract_domains
         ["curl"; "--resolve"; "example.org:443:93.184.216.34"].
Proof.
  assert (forall rest : list string,
             token_extract_domains
               ("--resolve" :: "example.org:443:93.184.216.34" :: rest)
             = {["example.org"]} ∪ token_extract_domains rest) as Hex.
  { intros rest. rewrite extract_cons_value by reflexivity.
    rewrite (flag_token_hosts "--resolve") by reflexivity.
    change (value_hosts "--resolve" "example.org:443:93.184.216.34")
      with (add_resolve "example.org:443:93.184.216.34" ∅).
    rewrite resolve_example_hosts. set_solver. }
  refine (conj _ (conj Hex (conj _ (conj _ _)))).
  - intros tokens i D t v Ht Hi Hv.
    pose proof (lookup_drop_cons _ _ _ Hi) as Hd.
    pose proof (lookup_drop_cons _ _ _ Hv) as Hd'.
    replace (S i) with (i + 1) in Hd by lia. rewrite Hd' in Hd.
    rewrite (loop_body_step _ _ _ _ _ Hd).
    rewrite (value_flag_takes_value _ Ht).
    rewrite (flag_token_hosts t (value_flag_takes_value _ Ht)).
    f_equal. set_solver.
  - intros pre post.
    apply elem_of_filter_by_tlds. split; [|apply keeps_example_org].
    rewrite token_extract_domains_scan.
    destruct (scan_suffix pre
                ("--resolve" :: "example.org:443:93.184.216.34" :: post) false)
      as [b Hb].
    apply Hb. destruct b.
    + cbn [scan]. pose proof resolve_example_generic as Hg.
      destruct post; [exact Hg|].
      destruct (flag_takes_value _); set_solver.
    + rewrite <- token_extract_domains_scan, Hex. set_solver.
  - intros tokens H. apply elem_of_filter_by_tlds in H as [_ H].
    rewrite keeps_ip_literal in H. discriminate H.
  - rewrite extract_cons_plain by reflexivity. rewrite Hex, extract_nil.
    assert (token_hosts "curl" = ∅) as -> by (vm_compute; reflexivity).
    set_solver.
Qed.

(** C4, the code at a failing input.  After [-I] the token [example.com]
    does not start with a URL scheme; the iteration at [-I] still moves
    the index past it, so it is never scanned and the result is empty,
    although the same token is found when no flag precedes it. *)
Theorem head_flag_drops_plain_host :
  (loop_body ["curl"; "-I"; "example.com"] (1, ∅)).1 = 3
  /\ token_extract_domains ["curl"; "-I"; "example.com"] = ∅
  /\ token_extract_domains ["curl"; "example.com"] = {["example.com"]}.
Proof. vm_compute. auto. Qed.

(** For every URL-bearing flag and every following token that does not
    start with a URL scheme, the flag and the token together contribute
    nothing. *)
Lemma url_flag_skips_plain_value t v rest :
  one_of t ["--url"; "--url*"; "-I"; "--head"] = true ->
  is_url v = false ->
  token_extract_domains (t :: v :: rest) = token_extract_domains rest.
Proof.
  intros Ht Hv. pose proof (url_flag_takes_value _ Ht) as Hf.
  rewrite (extract_cons_value _ _ _ Hf), (flag_token_hosts _ Hf).
  unfold value_hosts. rewrite Ht. unfold add_flag_url. rewrite Hv.
  set_solver.
Qed.

(** *** The Host pattern *)

Lemma drop_while_app_all p (s t : string) :
  all_chars p s = true -> Re.drop_while p (s +:+ t) = Re.drop_while p t.
Proof.
  induction s as [|c s IH]; [reflexivity|].
  rewrite app_cons. cbn [all_chars Re.drop_while].
  intros H. apply andb_true_iff in H as [Hc Hs]. rewrite Hc. auto.
Qed.

Lemma take_while_app_all p (s t : string) :
  all_chars p s = true ->
  match t with String c _ => p c | "" => false end = false ->
  Re.take_while p (s +:+ t) = s.
Proof.
  intros Hs Ht. induction s as [|c s IH].
  - rewrite app_empty. destruct t; simpl in *; [reflexivity|now rewrite Ht].
  - simpl in Hs. apply andb_true_iff in Hs as [Hc Hs].
    rewrite app_cons. cbn [Re.take_while]. rewrite Hc. f_equal. auto.
Qed.

Lemma value_char_not_space c : Re.is_value_char c = true -> Py.is_space c = false.
Proof. each_char c. Qed.

Lemma host_letters h :
  Py.lower h = "host" ->
  exists a b c d,
    h = String a (String b (String c (String d "")))
    /\ Py.lower_char a = "h"%char /\ Py.lower_char b = "o"%char
    /\ Py.lower_char c = "s"%char /\ Py.lower_char d = "t"%char.
Proof.
  destruct h as [|a [|b [|c [|d [|e h]]]]]; simpl; try discriminate.
  intros H. injection H as Ha Hb Hc Hd. exists a, b, c, d. auto.
Qed.

Lemma lower_h_plain a :
  Py.lower_char a = "h"%char ->
  Py.is_space a = false /\ Ascii.eqb a ":" = false /\ Re.is_value_char a = true
  /\ Ascii.eqb (Py.lower_char a) "o" = false
  /\ Ascii.eqb (Py.lower_char a) "s" = false
  /\ Ascii.eqb (Py.lower_char a) "t" = false.
Proof.
  intros H. destruct a as [[] [] [] [] [] [] [] []];
    vm_compute in H; try discriminate H; vm_compute; auto 10.
Qed.

(** Lemma A: at an occurrence with a value, the pattern matches and
    captures the maximal run of value characters. *)
Lemma host_match_occurrence h ws1 ws2 val rest :
  Py.lower h = "host" ->
  all_chars Py.is_space ws1 = true -> all_chars Py.is_space ws2 = true ->
  val <> "" -> all_chars Re.is_value_char val = true ->
  head_is_value rest = false ->
  Re.host_match (h +:+ ws1 +:+ ":" +:+ ws2 +:+ val +:+ rest) = Some val.
Proof.
  intros Hh H1 H2 Hne Hval Hrest.
  destruct (host_letters h Hh) as [a [b [c [d [-> _]]]]].
  rewrite !app_cons, app_empty. unfold Re.host_match. rewrite Hh.
  cbn [String.eqb Ascii.eqb Bool.eqb]. change (String.eqb "host" "host") with true.
  cbv iota. unfold Re.host_value.
  rewrite (drop_while_app_all _ _ _ H1).
  cbn [Re.drop_while]. change (Py.is_space ":") with false. cbv iota.
  change (Ascii.eqb ":" ":") with true. cbv iota.
  rewrite app_empty.
  assert (Re.drop_while Py.is_space (ws2 +:+ val +:+ rest) = val +:+ rest) as ->.
  { rewrite (drop_while_app_all _ _ _ H2).
    destruct val as [|x val]; [contradiction|].
    rewrite app_cons. cbn [Re.drop_while]. simpl in Hval.
    apply andb_true_iff in Hval as [Hx _].
    now rewrite (value_char_not_space _ Hx). }
  rewrite take_while_app_all; [|exact Hval|exact Hrest].
  destruct (String.eqb_spec val ""); [contradiction|reflexivity].
Qed.

Lemma host_value_space c r : Py.is_space c = true -> Re.host_value (String c r) = Re.host_value r.
Proof. intros H. unfold Re.host_value. cbn [Re.drop_while]. now rewrite H. Qed.

(** Whether a value follows is decided at the first character that is not
    white space. *)
Lemma value_found_indep s a Y1 Y2 :
  Py.is_space a = false -> Re.is_value_char a = true ->
  String.eqb (Re.take_while Re.is_value_char
                (Re.drop_while Py.is_space (s +:+ String a Y1))) ""
  = String.eqb (Re.take_while Re.is_value_char
                  (Re.drop_while Py.is_space (s +:+ String a Y2))) "".
Proof.
  intros Hs Hv. induction s as [|c s IH].
  - rewrite !app_empty. cbn [Re.drop_while Re.take_while]. rewrite Hs.
    cbn [Re.take_while]. now rewrite Hv.
  - rewrite !app_cons. cbn [Re.drop_while].
    destruct (Py.is_space c); [exact IH|].
    cbn [Re.take_while]. destruct (Re.is_value_char c); reflexivity.
Qed.

Lemma host_value_none_indep s a Y1 Y2 :
  Py.is_space a = false -> Re.is_value_char a = true -> Ascii.eqb a ":" = false ->
  Re.host_value (s +:+ String a Y1) = None ->
  Re.host_value (s +:+ String a Y2) = None.
Proof.
  intros Hs Hv Hc. induction s as [|c s IH].
  - intros _. rewrite app_empty. unfold Re.host_value.
    cbn [Re.drop_while]. now rewrite Hs, Hc.
  - rewrite !app_cons. destruct (Py.is_space c) eqn:E.
    + rewrite !(host_value_space _ _ E). exact IH.
    + unfold Re.host_value. cbn [Re.drop_while]. rewrite E.
      destruct (Ascii.eqb c ":"); [|reflexivity].
      cbv zeta. rewrite (value_found_indep s a Y1 Y2 Hs Hv).
      destruct (String.eqb _ ""); [reflexivity|discriminate].
Qed.

(** Lemma B: a match that starts before an occurrence of the four letters
    does not depend on what follows them. *)
Lemma host_match_none_indep s h T :
  Py.lower h = "host" -> s <> "" ->
  Re.host_match (s +:+ h) = None -> Re.host_match (s +:+ h +:+ T) = None.
Proof.
  intros Hh Hs.
  destruct (host_letters h Hh) as [a [b [c [d [-> [Ha [Hb [Hc Hd]]]]]]]].
  destruct (lower_h_plain a Ha) as [Hsp [Hcol [Hval _]]].
  destruct s as [|c1 [|c2 [|c3 [|c4 s']]]]; [contradiction|..];
    rewrite !app_cons, ?app_empty; unfold Re.host_match.
  - intros _.
    destruct (String.eqb_spec (Py.lower (String c1 (String a (String b (String c ""))))) "host")
      as [E|E]; [|reflexivity].
    simpl in E. rewrite Ha in E. discriminate E.
  - intros _.
    destruct (String.eqb_spec (Py.lower (String c1 (String c2 (String a (String b ""))))) "host")
      as [E|E]; [|reflexivity].
    simpl in E. rewrite Ha in E. discriminate E.
  - intros _.
    destruct (String.eqb_spec (Py.lower (String c1 (String c2 (String c3 (String a ""))))) "host")
      as [E|E]; [|reflexivity].
    simpl in E. rewrite Ha in E. discriminate E.
  - destruct (String.eqb (Py.lower (String c1 (String c2 (String c3 (String c4 ""))))) "host");
      [|reflexivity].
    apply host_value_none_indep; assumption.
Qed.

Lemma host_search_unfold s :
  Re.host_search s =
    match Re.host_match s with
    | Some v => Some v
    | None => match s with "" => None | String _ s' => Re.host_search s' end
    end.
Proof. destruct s; reflexivity. Qed.

(** The search finds the leftmost occurrence that matches. *)
Lemma host_search_leftmost pre h T v :
  Py.lower h = "host" ->
  Re.host_search (pre +:+ h) = None ->
  Re.host_match (h +:+ T) = Some v ->
  Re.host_search (pre +:+ h +:+ T) = Some v.
Proof.
  intros Hh Hnone Hm. induction pre as [|c pre IH].
  - rewrite app_empty, host_search_unfold. now rewrite Hm.
  - rewrite app_cons in *. rewrite host_search_unfold in Hnone.
    destruct (Re.host_match (String c (pre +:+ h))) eqn:E; [discriminate|].
    rewrite host_search_unfold.
    rewrite <- app_cons, (host_match_none_indep (String c pre) h T Hh); auto.
Qed.

(** The search is not anchored: a match anywhere makes it succeed. *)
Lemma host_search_anywhere pre s v :
  Re.host_match s = Some v -> exists v', Re.host_search (pre +:+ s) = Some v'.
Proof.
  intros Hm. induction pre as [|c pre [v' IH]].
  - rewrite app_empty, host_search_unfold, Hm. eauto.
  - rewrite app_cons, host_search_unfold.
    destruct (Re.host_match (String c (pre +:+ s))); eauto.
Qed.

(** C10 (amended).  In the header rule the Host pattern is searched without
    regard to letter case anywhere in the header value, not only at its
    start.  Whenever the value contains the letters of [host], optional
    white space, a colon, optional white space and then at least one
    character other than a semicolon, a comma, white space and a quote, the
    search succeeds and the header is handled by the Host-header path
    alone: the captured value is normalized and added, and the flag and the
    header contribute nothing else.  The captured value is that of the
    leftmost matching occurrence; when no match starts earlier it is the
    maximal run of such characters after the colon.  For the tokens [-H]
    and [X-Forwarded-Host: evil.example] the candidate is
    [evil.example]. *)
Theorem host_header_search_unanchored
    (flag pre h ws1 ws2 val rest : string) (more : list string) :
  one_of flag ["-H"; "--header"] = true ->
  Py.lower h = "host" ->
  all_chars Py.is_space ws1 = true ->
  all_chars Py.is_space ws2 = true ->
  val <> "" ->
  all_chars Re.is_value_char val = true ->
  head_is_value rest = false ->
  (exists v,
      Re.host_search (pre +:+ h +:+ ws1 +:+ ":" +:+ ws2 +:+ val +:+ rest) = Some v
      /\ token_extract_domains
           (flag :: (pre +:+ h +:+ ws1 +:+ ":" +:+ ws2 +:+ val +:+ rest) :: more)
         = {[normalize_host v]} ∪ token_extract_domains more
      /\ (Re.host_search (pre +:+ h) = None -> v = val))
  /\ token_extract_domains ["-H"; "X-Forwarded-Host: evil.example"]
     = {["evil.example"]}.
Proof.
  intros Hflag Hh H1 H2 Hne Hval Hrest. split.
  - pose proof (host_match_occurrence h ws1 ws2 val rest Hh H1 H2 Hne Hval Hrest)
      as Hm.
    destruct (host_search_anywhere pre _ _ Hm) as [v Hv].
    exists v. split; [exact Hv|]. split.
    + assert (flag_takes_value flag = true) as Hf.
      { apply one_of_cases in Hflag. simpl in Hflag.
        destruct Hflag as [<-|[<-|[]]]; reflexivity. }
      rewrite (extract_cons_value _ _ _ Hf), (flag_token_hosts _ Hf).
      rewrite value_hosts_kind.
      assert (kind_of flag = KHeader) as ->.
      { apply one_of_cases in Hflag. simpl in Hflag.
        destruct Hflag as [<-|[<-|[]]]; reflexivity. }
      unfold add_header. rewrite Hv. set_solver.
    + intros Hnone.
      pose proof (host_search_leftmost pre h _ val Hh Hnone Hm) as Hl.
      rewrite Hl in Hv. now injection Hv.
  - vm_compute. reflexivity.
Qed.

End Extractor.

(** C10 (as stated) fails: the letters and the colon alone do not make a
    match, a value must follow.  The header [Host:] is not matched and
    nothing is added. *)
Lemma host_header_without_value :
  "Host:" = "" +:+ "Host" +:+ "" +:+ ":" +:+ ""
  /\ Py.lower "Host" = "host"
  /\ Re.host_search "Host:" = None
  /\ @token_extract_domains plain_library ["-H"; "Host:"] = ∅.
Proof. vm_compute. auto. Qed.

Lemma host_header_search_unanchored_witness :
  (one_of "-H" ["-H"; "--header"] = true
   /\ Py.lower "Host" = "host"
   /\ all_chars Py.is_space " " = true
   /\ all_chars Re.is_value_char "evil.example" = true
   /\ head_is_value ";q=1" = false)
  /\ exists v,
      Re.host_search "X-Forwarded-Host: evil.example;q=1" = Some v
      /\ @token_extract_domains plain_library
           ["-H"; "X-Forwarded-Host: evil.example;q=1"; "https://a.example.net/"]
         = {[normalize_host v]}
             ∪ @token_extract_domains plain_library ["https://a.example.net/"]
      /\ (Re.host_search "X-Forwarded-Host" = None -> v = "evil.example").
Proof.
  split; [repeat split|].
  apply (@host_header_search_unanchored plain_library
           "-H" "X-Forwarded-" "Host" "" " " "evil.example" ";q=1"
           ["https://a.example.net/"]).
  - reflexivity.
  - reflexivity.
  - reflexivity.
  - reflexivity.
  - discriminate.
  - reflexivity.
  - reflexivity.
Defined.

(** ** The TLD filter *)

Lemma split_all_nonempty sep s : Py.split_all sep s <> [].
Proof.
  induction s as [|c s IH]; simpl; [discriminate|].
  destruct (Ascii.eqb c sep); [discriminate|].
  destruct (Py.split_all sep s); discriminate.
Qed.

Lemma rsplit_nonempty sep n s : Py.rsplit sep n s <> [].
Proof.
  induction s as [|c s IH]; simpl; [discriminate|].
  destruct (Ascii.eqb c sep && (List.length (Py.rsplit sep n s) <=? n)%nat);
    [discriminate|].
  destruct (Py.rsplit sep n s); discriminate.
Qed.

Lemma last_cons_cons (x y : string) l : List.last (x :: y :: l) "" = List.last (y :: l) "".
Proof. reflexivity. Qed.

(** With at least one split allowed, the last part of a split from the
    right is the last part of the full split, and the two lists are
    singletons together. *)
Lemma rsplit_last_aux sep n s :
  (List.length (Py.rsplit sep (S n) s) = 1 <-> List.length (Py.split_all sep s) = 1)
  /\ List.last (Py.rsplit sep (S n) s) "" = List.last (Py.split_all sep s) "".
Proof.
  induction s as [|c s [IHl IHe]]; [simpl; tauto|].
  cbn [Py.rsplit Py.split_all].
  pose proof (rsplit_nonempty sep (S n) s) as HR.
  pose proof (split_all_nonempty sep s) as HA.
  destruct (Py.rsplit sep (S n) s) as [|p ps] eqn:ER; [contradiction|].
  destruct (Py.split_all sep s) as [|q qs] eqn:EA; [contradiction|].
  destruct (Ascii.eqb c sep); cbn [andb].
  - destruct (List.length (p :: ps) <=? S n)%nat eqn:El.
    + split; [simpl; split; intros; lia|].
      rewrite !last_cons_cons. exact IHe.
    + apply Nat.leb_gt in El. destruct ps as [|p' ps]; [simpl in El; lia|].
      split; [simpl; split; intros; lia|].
      rewrite !last_cons_cons. rewrite last_cons_cons in IHe. exact IHe.
  - split; [simpl in *; exact IHl|].
    destruct ps as [|p' ps], qs as [|q' qs].
    + simpl in *. now rewrite IHe.
    + simpl in IHl. lia.
    + simpl in IHl. lia.
    + rewrite !last_cons_cons in *. exact IHe.
Qed.

Lemma rsplit_last n d : Py.item_last (Py.rsplit "." (S n) d) = last_label d.
Proof. apply rsplit_last_aux. Qed.

Lemma split_all_no_sep sep s :
  Py.contains sep s = false -> Py.split_all sep s = [s].
Proof.
  induction s as [|c s IH]; simpl; [reflexivity|].
  destruct (Ascii.eqb c sep); simpl; [discriminate|].
  intros H. now rewrite (IH H).
Qed.

Lemma last_label_no_dot d : Py.contains "." d = false -> last_label d = d.
Proof. intros H. unfold last_label, labels. now rewrite split_all_no_sep. Qed.

Section Filter.
Context `{L : Library}.

(** The test of the filter on one domain. *)
Lemma keeps_spec (tlds : gset string) d :
  keeps tlds d = true <->
  d <> ""
  /\ (Py.lower (last_label d) ∈ tlds
      \/ (String.prefix "xn--" (Py.lower (last_label d)) = true
          /\ exists decoded,
               idna_decode d = Some decoded
               /\ Py.lower (last_label decoded) ∈ tlds)).
Proof.
  unfold keeps. rewrite !rsplit_last.
  destruct (String.eqb_spec d "") as [->|Hne].
  { split; [discriminate|]. intros [H _]. now contradiction H. }
  destruct (bool_decide (Py.lower (last_label d) ∈ tlds)) eqn:E1.
  { apply bool_decide_eq_true in E1. split; auto. }
  apply bool_decide_eq_false in E1.
  destruct (String.prefix "xn--" (Py.lower (last_label d))) eqn:E2.
  - destruct (idna_decode d) as [decoded|] eqn:E3.
    + rewrite rsplit_last, bool_decide_eq_true. split.
      * intros H. split; [exact Hne|]. right. split; [reflexivity|].
        exists decoded. auto.
      * intros [_ [H|[_ [dec [Hd H]]]]]; [contradiction|].
        injection Hd as <-. exact H.
    + split; [discriminate|].
      intros [_ [H|[_ [dec [Hd _]]]]]; [contradiction|discriminate].
  - split; [discriminate|].
    intros [_ [H|[H _]]]; [contradiction|discriminate].
Qed.

Lemma elem_of_filter_spec (domains tlds : gset string) d :
  d ∈ filter_by_tlds domains tlds <->
  d <> "" /\ d ∈ domains
  /\ (Py.lower (last_label d) ∈ tlds
      \/ (String.prefix "xn--" (Py.lower (last_label d)) = true
          /\ exists decoded,
               idna_decode d = Some decoded
               /\ Py.lower (last_label decoded) ∈ tlds)).
Proof. rewrite elem_of_filter_by_tlds, keeps_spec. tauto. Qed.

(** The loop skips the empty candidate before any test: it is never kept. *)
Lemma filter_by_tlds_not_empty (domains tlds : gset string) :
  "" ∉ filter_by_tlds domains tlds.
Proof. intros H. apply elem_of_filter_spec in H as [H _]. now apply H. Qed.

(** C1.  The TLD set handed to the filter is a set of TLD labels: it does
    not hold the empty string, and no TLD set that the program loads does,
    empty lines being skipped.  For every domain set and every such TLD
    set, a domain is in the filtered set if and only if it is in the domain
    set and either its last dot-separated label, lowercased, is a member of
    the TLD set, or that lowercased label starts with [xn--], the whole
    domain decodes from its IDNA form, and the last label of the decoded
    form is in the TLD set.  The code lowercases the decoded label before
    it looks it up (first part); whenever the decoder returns a name whose
    last label is in lower case, the test is the one on the decoded label
    as it stands (second part).  What is kept is the original string; a
    domain whose decoding fails and whose own last label is no TLD is
    excluded (third part); and only the last label is tested:
    [example.co.uk] is kept as soon as [uk] is in the TLD set, whatever
    the set says about [co.uk] (fourth part). *)
Theorem filter_by_tlds_spec (domains tlds : gset string) (d : string) :
  "" ∉ tlds ->
  (d ∈ filter_by_tlds domains tlds <->
   d ∈ domains
   /\ (Py.lower (last_label d) ∈ tlds
       \/ (String.prefix "xn--" (Py.lower (last_label d)) = true
           /\ exists decoded,
                idna_decode d = Some decoded
                /\ Py.lower (last_label decoded) ∈ tlds)))
  /\ ((forall decoded, idna_decode d = Some decoded ->
         Py.lower (last_label decoded) = last_label decoded) ->
      (d ∈ filter_by_tlds domains tlds <->
       d ∈ domains
       /\ (Py.lower (last_label d) ∈ tlds
           \/ (String.prefix "xn--" (Py.lower (last_label d)) = true
               /\ exists decoded,
                    idna_decode d = Some decoded
                    /\ last_label decoded ∈ tlds))))
  /\ (idna_decode d = None -> Py.lower (last_label d) ∉ tlds ->
      d ∉ filter_by_tlds domains tlds)
  /\ ("example.co.uk" ∈ domains -> "uk" ∈ tlds ->
      "example.co.uk" ∈ filter_by_tlds domains tlds).
Proof.
  intros Hne.
  assert (d ∈ filter_by_tlds domains tlds <->
          d ∈ domains
          /\ (Py.lower (last_label d) ∈ tlds
              \/ (String.prefix "xn--" (Py.lower (last_label d)) = true
                  /\ exists decoded,
                       idna_decode d = Some decoded
                       /\ Py.lower (last_label decoded) ∈ tlds))) as Hiff.
  { rewrite elem_of_filter_spec. split; [tauto|].
    intros [Hd H]. split; [|auto]. intros ->.
    destruct H as [H|[H _]]; [exact (Hne H)|discriminate H]. }
  refine (conj Hiff (conj _ (conj _ _))).
  - intros Hlow. rewrite Hiff. split.
    + intros [Hd [H|[Hp [decoded [He H]]]]]; (split; [exact Hd|]); [now left|].
      right. split; [exact Hp|]. exists decoded. split; [exact He|].
      now rewrite <- (Hlow decoded He).
    + intros [Hd [H|[Hp [decoded [He H]]]]]; (split; [exact Hd|]); [now left|].
      right. split; [exact Hp|]. exists decoded. split; [exact He|].
      now rewrite (Hlow decoded He).
  - intros Hfail Hn Hin. apply Hiff in Hin as [_ [H|[_ [decoded [He _]]]]].
    + exact (Hn H).
    + rewrite Hfail in He. discriminate He.
  - intros Hd Ht. apply elem_of_filter_spec.
    split; [discriminate|]. split; [exact Hd|]. left. exact Ht.
Qed.

(** C8 (amended).  A candidate domain that contains no dot is its own last
    label: the filter keeps it exactly when it is not empty and its
    lowercased form is itself in the TLD set, or starts with [xn--] and
    decodes to a name whose last label, lowercased, is in the TLD set.  It
    is therefore excluded for every TLD set that does not contain its
    lowercased form, unless that form starts with [xn--]. *)
Theorem filter_dotless (domains tlds : gset string) (d : string) :
  Py.contains "." d = false ->
  (d ∈ filter_by_tlds domains tlds <->
   d <> "" /\ d ∈ domains
   /\ (Py.lower d ∈ tlds
       \/ (String.prefix "xn--" (Py.lower d) = true
           /\ exists decoded,
                idna_decode d = Some decoded
                /\ Py.lower (last_label decoded) ∈ tlds)))
  /\ (Py.lower d ∉ tlds -> String.prefix "xn--" (Py.lower d) = false ->
      d ∉ filter_by_tlds domains tlds).
Proof.
  intros Hdot.
  pose proof (elem_of_filter_spec domains tlds d) as H.
  rewrite (last_label_no_dot d Hdot) in H.
  split; [exact H|].
  intros Hn Hp Hin. apply H in Hin as [_ [_ [Hin|[Hin _]]]];
    [contradiction|congruence].
Qed.

Lemma filter_by_tlds_subseteq (domains tlds : gset string) :
  filter_by_tlds domains tlds ⊆ domains.
Proof. intros d Hd. apply elem_of_filter_by_tlds in Hd. tauto. Qed.

End Filter.

Lemma filter_by_tlds_spec_witness :
  ("" ∉ ({["uk"; "com"]} : gset string))
  /\ "example.co.uk" ∈
       @filter_by_tlds plain_library
         {["example.co.uk"; "example.exampletechnologies.io"]} {["uk"; "com"]}
  /\ "example.exampletechnologies.io" ∉
       @filter_by_tlds plain_library
         {["example.co.uk"; "example.exampletechnologies.io"]} {["uk"; "com"]}.
Proof.
  assert ("" ∉ ({["uk"; "com"]} : gset string)) as H0.
  { intros H. apply elem_of_union in H as [H|H];
      apply elem_of_singleton in H; discriminate H. }
  assert ("example.co.uk" ∈ ({["example.co.uk"; "example.exampletechnologies.io"]} : gset string))
    as H1 by (apply elem_of_union; left; apply elem_of_singleton; reflexivity).
  assert ("uk" ∈ ({["uk"; "com"]} : gset string))
    as H2 by (apply elem_of_union; left; apply elem_of_singleton; reflexivity).
  assert (Py.lower (last_label "example.exampletechnologies.io")
            ∉ ({["uk"; "com"]} : gset string)) as H3.
  { intros H. apply elem_of_union in H as [H|H];
      apply elem_of_singleton in H; discriminate H. }
  refine (conj H0 (conj _ _)).
  - exact (proj2 (proj2 (proj2
             (@filter_by_tlds_spec plain_library _ _ "example.co.uk" H0)))
             H1 H2).
  - exact (proj1 (proj2 (proj2
             (@filter_by_tlds_spec plain_library
                {["example.co.uk"; "example.exampletechnologies.io"]} _
                "example.exampletechnologies.io" H0)))
             eq_refl H3).
Defined.

(** C8 (as stated) fails: the candidate [com] has no dot and is kept when
    [com] is in the TLD set. *)
Lemma filter_keeps_dotless_tld :
  "com" ∈ ({["com"]} : gset string)
  /\ Py.contains "." "com" = false
  /\ "com" ∈ @filter_by_tlds plain_library {["com"]} {["com"]}.
Proof.
  split; [set_solver|]. split; [reflexivity|].
  apply elem_of_filter_by_tlds. split; [set_solver|]. vm_compute. reflexivity.
Qed.

Lemma filter_dotless_witness :
  (Py.contains "." "localhost" = false
   /\ (Py.lower "localhost" ∉ ({["com"]} : gset string))
   /\ String.prefix "xn--" (Py.lower "localhost") = false)
  /\ "localhost" ∉ @filter_by_tlds plain_library {["localhost"; "a.com"]} {["com"]}.
Proof.
  assert (Py.lower "localhost" ∉ ({["com"]} : gset string)) as Hn.
  { intros H. apply elem_of_singleton in H. discriminate H. }
  split; [repeat split; [exact Hn]|].
  exact (proj2 (@filter_dotless plain_library {["localhost"; "a.com"]} {["com"]}
                  "localhost" eq_refl) Hn eq_refl).
Defined.

(** ** The pattern synthesizer *)

Lemma split_all_app sep a b :
  Py.split_all sep (a +:+ String sep b)
  = (Py.split_all sep a ++ Py.split_all sep b)%list.
Proof.
  induction a as [|c a IH].
  - rewrite app_empty. cbn [Py.split_all]. now rewrite Ascii.eqb_refl.
  - rewrite app_cons. cbn [Py.split_all]. rewrite IH.
    destruct (Ascii.eqb c sep); [reflexivity|].
    pose proof (split_all_nonempty sep a) as Hne.
    destruct (Py.split_all sep a); [contradiction|reflexivity].
Qed.

Lemma penultimate_snoc2 (l : list string) x y :
  Py.item_penultimate (l ++ [x; y])%list = x.
Proof.
  unfold Py.item_penultimate. rewrite length_app. simpl.
  replace (List.length l + 2 - 2) with (List.length l) by lia.
  induction l; simpl; auto.
Qed.

(** The label of a single-label domain is the domain, and the label of a
    domain with two labels or more is the label before the last one. *)
Lemma wildcard_label_single d : Py.contains "." d = false -> wildcard_label d = d.
Proof.
  intros H. unfold wildcard_label. now rewrite (split_all_no_sep _ _ H).
Qed.

Lemma wildcard_label_two l2 l1 :
  Py.contains "." l2 = false -> Py.contains "." l1 = false ->
  wildcard_label (l2 +:+ "." +:+ l1) = l2.
Proof.
  intros H2 H1. unfold wildcard_label.
  rewrite app_cons, app_empty, split_all_app.
  rewrite (split_all_no_sep _ _ H2), (split_all_no_sep _ _ H1). reflexivity.
Qed.

Lemma wildcard_label_more pre l2 l1 :
  Py.contains "." l2 = false -> Py.contains "." l1 = false ->
  wildcard_label (pre +:+ "." +:+ l2 +:+ "." +:+ l1) = l2.
Proof.
  intros H2 H1. unfold wildcard_label.
  rewrite !app_cons, !app_empty, !split_all_app.
  rewrite (split_all_no_sep _ _ H2), (split_all_no_sep _ _ H1).
  assert ((2 <=? List.length (Py.split_all "." pre ++ [l2] ++ [l1]))%nat = true)
    as ->.
  { apply Nat.leb_le. rewrite !length_app. simpl. lia. }
  apply (penultimate_snoc2 (Py.split_all "." pre) l2 l1).
Qed.

Lemma elem_of_wildcard_labels (domains : gset string) l :
  l ∈ set_fold (fun d labels => {[wildcard_label d]} ∪ labels)
               (∅ : gset string) domains
  <-> exists d, d ∈ domains /\ l = wildcard_label d.
Proof.
  apply (set_fold_ind_L
           (fun (labels : gset string) (X : gset string) =>
              l ∈ labels <-> exists d, d ∈ X /\ l = wildcard_label d)).
  - split; [set_solver|]. intros [d [Hd _]]. set_solver.
  - intros x X labels Hx IH.
    rewrite elem_of_union, elem_of_singleton, IH. split.
    + intros [->|[d [Hd ->]]]; [exists x|exists d]; set_solver.
    + intros [d [Hd ->]]. apply elem_of_union in Hd as [Hd|Hd].
      * apply elem_of_singleton in Hd as ->. now left.
      * right. now exists d.
Qed.

Lemma length_append (a b : string) :
  String.length (a +:+ b) = String.length a + String.length b.
Proof.
  induction a as [|c a IH]; [reflexivity|].
  rewrite app_cons. simpl. now rewrite IH.
Qed.

Lemma append_suffix_inj (suffix a b : string) :
  a +:+ suffix = b +:+ suffix -> a = b.
Proof.
  revert b. induction a as [|x a IH]; intros [|y b] H.
  - reflexivity.
  - exfalso. rewrite app_empty, app_cons in H.
    assert (String.length suffix = String.length (String y (b +:+ suffix)))
      as Hl by now rewrite <- H.
    simpl in Hl. rewrite length_append in Hl. lia.
  - exfalso. rewrite app_empty, app_cons in H.
    assert (String.length (String x (a +:+ suffix)) = String.length suffix)
      as Hl by now rewrite H.
    simpl in Hl. rewrite length_append in Hl. lia.
  - rewrite !app_cons in H. injection H as -> H. f_equal. now apply IH.
Qed.

(** C9.  For every filtered domain set, [suggest_wildcards] takes from each
    domain its label (the second-to-last dot-separated label when there are
    at least two labels, the whole string when there is one), and returns
    the strings made of a label followed by a dot and a star, one for each
    distinct label, in ascending lexicographic order.  For the set of
    [login.example.com] and [shop.example.com] the result is the one-element
    list of [example.*]. *)
Theorem suggest_wildcards_spec (domains : gset string) :
  (forall w, w ∈ suggest_wildcards domains
             <-> exists d, d ∈ domains /\ w = wildcard_label d +:+ ".*")
  /\ NoDup (suggest_wildcards domains)
  /\ StronglySorted String.le (suggest_wildcards domains)
  /\ (forall d, Py.contains "." d = false -> wildcard_label d = d)
  /\ (forall l2 l1, Py.contains "." l2 = false -> Py.contains "." l1 = false ->
                    wildcard_label (l2 +:+ "." +:+ l1) = l2)
  /\ (forall pre l2 l1, Py.contains "." l2 = false -> Py.contains "." l1 = false ->
                        wildcard_label (pre +:+ "." +:+ l2 +:+ "." +:+ l1) = l2)
  /\ suggest_wildcards {["login.example.com"; "shop.example.com"]} = ["example.*"].
Proof.
  refine (conj _ (conj _ (conj _ (conj _ (conj _ (conj _ _)))))).
  - intros w. unfold suggest_wildcards, sorted. rewrite merge_sort_Permutation.
    rewrite list_elem_of_fmap. split.
    + intros [l [-> Hl]].
      apply elem_of_elements, elem_of_wildcard_labels in Hl as [d [Hd ->]].
      now exists d.
    + intros [d [Hd ->]]. exists (wildcard_label d). split; [reflexivity|].
      apply elem_of_elements, elem_of_wildcard_labels. now exists d.
  - unfold suggest_wildcards, sorted. rewrite merge_sort_Permutation.
    apply NoDup_fmap_2; [|apply NoDup_elements].
    intros a b. apply append_suffix_inj.
  - unfold suggest_wildcards, sorted. apply StronglySorted_merge_sort; apply _.
  - apply wildcard_label_single.
  - apply wildcard_label_two.
  - apply wildcard_label_more.
  - vm_compute. reflexivity.
Qed.

Lemma suggest_wildcards_spec_witness :
  (Py.contains "." "example" = false /\ Py.contains "." "com" = false)
  /\ wildcard_label ("login" +:+ "." +:+ "example" +:+ "." +:+ "com") = "example".
Proof.
  split; [split; reflexivity|].
  exact (proj1 (proj2 (proj2 (proj2 (proj2 (proj2
           (suggest_wildcards_spec ∅))))))
           "login" "example" "com" eq_refl eq_refl).
Defined.

(** ** The command-line driver *)

Section Driver.
Context `{L : Library}.

(** With no usable [--cmd] argument the command is read from standard
    input and trimmed; when nothing is left the run prints the usage hint
    and exits with status 1. *)
Lemma main_blank_stdin (a : Args) (w : World) :
  truthy (arg_cmd a) = false -> Py.strip_ws (stdin_text w) = "" ->
  main a w
  = {| status := 1;
       stdout := ["Provide a curl command via --cmd or stdin. See --help."] |}.
Proof. intros Hc Hs. unfold main. rewrite Hc, Hs. reflexivity. Qed.

(** C6, the code at a failing input.  The argument [--cmd] holds three
    spaces, which is empty after trimming, and a TLD file is given: the
    emptiness test sees the untrimmed argument, the run goes on and ends
    with status 0; with a tokenizer that finds no token in the blank
    command it prints the header of the domain block and the marker for
    an empty result. *)
Theorem blank_cmd_argument_not_rejected :
  Py.strip_ws "   " = ""
  /\ status (main blank_cmd_args tld_file_world) = 0
  /\ @main plain_library blank_cmd_args tld_file_world
     = {| status := 0;
          stdout := ["# Matched domains (TLD filtered):"; "# (none)"] |}.
Proof.
  split; [reflexivity|]. split; [|vm_compute; reflexivity].
  unfold main. cbn [blank_cmd_args arg_cmd truthy default negb String.eqb].
  vm_compute. reflexivity.
Qed.

End Driver.

(** ** Runs on concrete command lines *)


Lemma value_flag_consumes_token_witness :
  (one_of "-H" ["-H"; "--header"; "--resolve"; "--connect-to"] = true
   /\ ["curl"; "-H"; "Host: api.example.net"; "https://a.example.com/"] !! 1
      = Some "-H"
   /\ ["curl"; "-H"; "Host: api.example.net"; "https://a.example.com/"] !! (1 + 1)
      = Some "Host: api.example.net")
  /\ @loop_body plain_library
       ["curl"; "-H"; "Host: api.example.net"; "https://a.example.com/"] (1, ∅)
     = (1 + 2, ∅ ∪ @value_hosts plain_library "-H" "Host: api.example.net").
Proof.
  split; [repeat split|].
  exact (proj1 (@value_flag_consumes_token plain_library)
           ["curl"; "-H"; "Host: api.example.net"; "https://a.example.com/"]
           1 ∅ "-H" "Host: api.example.net" eq_refl eq_refl eq_refl).
Defined.

(** The scenarios of the specification, run with the plain library. *)
Example scenario_two_hosts :
  @filter_by_tlds plain_library
    (@token_extract_domains plain_library
       ["curl"; "https://login.example.com"; "-H";
        "Host: api.exampletechnologies.net"])
    {["com"; "net"]}
  = {["login.example.com"; "api.exampletechnologies.net"]}.
Proof. vm_compute. reflexivity. Qed.

Example scenario_last_label_only :
  @filter_by_tlds plain_library
    (@token_extract_domains plain_library
       ["curl"; "https://example.co.uk/path"; "-H";
        "Host: example.exampletechnologies.io"])
    {["uk"; "com"]}
  = {["example.co.uk"]}.
Proof. vm_compute. reflexivity. Qed.

Example scenario_resolve :
  @filter_by_tlds plain_library
    (@token_extract_domains plain_library
       ["curl"; "--resolve"; "example.org:443:93.184.216.34";
        "https://example.org/"])
    {["org"]}
  = {["example.org"]}.
Proof. vm_compute. reflexivity. Qed.

Example scanners_on_samples :
  Re.domain_findall "x a.b..c.d -e.f. g" = ["a.b"; "c.d"; "-e.f"]
  /\ Re.host_search "X-Forwarded-HoSt  : evil.example;q" = Some "evil.example"
  /\ Re.split_commas "a:1 ,  b:2, ,c , " = ["a:1"; "b:2"; ""; "c"; ""]
  /\ Py.rsplit "." 2 "a.b.c.d" = ["a.b"; "c"; "d"]
  /\ Py.split "@" 1 "a@b@c" = ["a"; "b@c"]
  /\ Py.split_ws "  a b   c " = ["a"; "b"; "c"]
  /\ Py.strip "[]" "][a[]]" = "a"
  /\ normalize_host "User:pw@Example.COM:8443" = "example.com"
  /\ normalize_host "[a]:80" = "a]".
Proof. vm_compute. repeat split. Qed.

(* ================================================================== *)
(** * Further properties of the code *)

(** ** The host normalizer on the usual shapes of a network location *)

Lemma all_chars_app p (a b : string) :
  all_chars p (a +:+ b) = all_chars p a && all_chars p b.
Proof.
  induction a as [|c a IH]; [reflexivity|].
  rewrite app_cons. simpl. now rewrite IH, andb_assoc.
Qed.

Lemma contains_app c (a b : string) :
  Py.contains c (a +:+ b) = Py.contains c a || Py.contains c b.
Proof.
  induction a as [|x a IH]; [reflexivity|].
  rewrite app_cons. simpl. now rewrite IH, orb_assoc.
Qed.

Lemma host_char_spec c :
  host_char c = true ->
  Ascii.eqb c "@" = false /\ Ascii.eqb c ":" = false
  /\ Py.contains c "[]" = false.
Proof. each_char c. Qed.

Lemma host_chars_facts s :
  all_chars host_char s = true ->
  Py.contains "@" s = false /\ Py.contains ":" s = false
  /\ head_in "[]" s = false /\ last_in "[]" s = false.
Proof.
  induction s as [|c s IH]; simpl; [auto|].
  intros H. apply andb_true_iff in H as [Hc Hs].
  destruct (host_char_spec c Hc) as [Hat [Hcol Hbr]].
  destruct (IH Hs) as [H1 [H2 [_ H4]]].
  rewrite Hat, Hcol, H1, H2. repeat split; [exact Hbr|].
  destruct s; [exact Hbr|exact H4].
Qed.

Lemma after_first_app c (a b : string) :
  Py.contains c a = false -> after_first c (a +:+ String c b) = b.
Proof.
  induction a as [|x a IH]; rewrite ?app_empty, ?app_cons; simpl.
  - intros _. now rewrite Ascii.eqb_refl.
  - destruct (Ascii.eqb x c); [discriminate|]. exact IH.
Qed.

Lemma before_first_app c (a b : string) :
  Py.contains c a = false -> before_first c (a +:+ String c b) = a.
Proof.
  induction a as [|x a IH]; rewrite ?app_empty, ?app_cons; simpl.
  - intros _. now rewrite Ascii.eqb_refl.
  - destruct (Ascii.eqb x c); [discriminate|].
    intros H. now rewrite IH.
Qed.

Lemma before_first_app_has c (a b : string) :
  Py.contains c a = true -> before_first c (a +:+ b) = before_first c a.
Proof.
  induction a as [|x a IH]; rewrite ?app_cons; simpl; [discriminate|].
  destruct (Ascii.eqb x c); [reflexivity|].
  simpl. intros H. now rewrite IH.
Qed.

(** Stripping on the right stops at a character that is not stripped. *)
Lemma rstrip_app_keep chars (a b : string) c :
  Py.contains c chars = false ->
  Py.rstrip chars (a +:+ String c b) = a +:+ String c (Py.rstrip chars b).
Proof.
  intros Hc. induction a as [|x a IH].
  - rewrite !app_empty. simpl. destruct (Py.rstrip chars b); [now rewrite Hc|reflexivity].
  - rewrite !app_cons. simpl. rewrite IH.
    destruct a; rewrite ?app_empty, ?app_cons; reflexivity.
Qed.

Lemma lstrip_app_keep chars (a b : string) :
  head_in chars a = false -> a <> "" -> Py.lstrip chars (a +:+ b) = a +:+ b.
Proof.
  destruct a as [|x a]; [contradiction|]. rewrite app_cons. simpl. intros H _.
  now rewrite H.
Qed.

Lemma normalize_described_host_port h p :
  all_chars host_char h = true ->
  Py.lower (before_first ":" (Py.strip "[]" (h +:+ ":" +:+ p))) = Py.lower h.
Proof.
  intros Hh. destruct (host_chars_facts h Hh) as [_ [Hcol [Hhead _]]].
  rewrite app_cons, app_empty. unfold Py.strip.
  assert (Py.lstrip "[]" (h +:+ String ":" p) = h +:+ String ":" p) as ->.
  { destruct h as [|x h]; [reflexivity|]. apply lstrip_app_keep; [exact Hhead|discriminate]. }
  rewrite rstrip_app_keep by reflexivity.
  now rewrite before_first_app.
Qed.

Lemma normalize_described_host h :
  all_chars host_char h = true ->
  Py.lower (before_first ":" (Py.strip "[]" h)) = Py.lower h.
Proof.
  intros Hh. destruct (host_chars_facts h Hh) as [_ [Hcol [Hhead Hlast]]].
  unfold Py.strip. rewrite (lstrip_id _ _ Hhead), (rstrip_id _ _ Hlast).
  now rewrite before_first_id.
Qed.

Lemma normalize_host_plain h :
  all_chars host_char h = true -> normalize_host h = Py.lower h.
Proof.
  intros Hh. destruct (host_chars_facts h Hh) as [Hat _].
  rewrite normalize_host_unfold. unfold normalize_described, drop_userinfo.
  rewrite Hat. apply (normalize_described_host h Hh).
Qed.

(** X1.  A network location made of optional user information, a host and
    an optional port is normalized to the lowercased host: when the host
    holds no at sign, square bracket or colon, and the user information
    holds no at sign, [user@host:port], [user@host], [host:port] (with no
    at sign in the port) and [host] all give the host in lower case. *)
Theorem normalize_host_shapes (u h p : string) :
  all_chars host_char h = true ->
  (Py.contains "@" u = false ->
   normalize_host (u +:+ "@" +:+ h +:+ ":" +:+ p) = Py.lower h
   /\ normalize_host (u +:+ "@" +:+ h) = Py.lower h)
  /\ (Py.contains "@" p = false ->
      normalize_host (h +:+ ":" +:+ p) = Py.lower h)
  /\ normalize_host h = Py.lower h.
Proof.
  intros Hh. destruct (host_chars_facts h Hh) as [Hat _].
  split; [|split].
  - intros Hu. rewrite !normalize_host_unfold.
    unfold normalize_described, drop_userinfo.
    rewrite !app_cons, !app_empty.
    assert (forall X, Py.contains "@" (u +:+ String "@" X) = true) as Hc.
    { intros X. rewrite contains_app. cbn [Py.contains].
      rewrite Ascii.eqb_refl. apply orb_true_r. }
    rewrite !Hc, !(after_first_app _ _ _ Hu). split.
    + pose proof (normalize_described_host_port h p Hh) as H.
      rewrite app_cons, app_empty in H. exact H.
    + apply (normalize_described_host h Hh).
  - intros Hp. rewrite normalize_host_unfold.
    unfold normalize_described, drop_userinfo.
    assert (Py.contains "@" (h +:+ ":" +:+ p) = false) as ->.
    { rewrite !contains_app, Hat, Hp. reflexivity. }
    apply (normalize_described_host_port h p Hh).
  - apply (normalize_host_plain h Hh).
Qed.

Lemma normalize_host_shapes_witness :
  (all_chars host_char "Example.COM" = true
   /\ Py.contains "@" "User:pw" = false)
  /\ normalize_host ("User:pw" +:+ "@" +:+ "Example.COM" +:+ ":" +:+ "8443")
     = Py.lower "Example.COM".
Proof.
  split; [split; reflexivity|].
  exact (proj1 (proj1 (normalize_host_shapes "User:pw" "Example.COM" "8443" eq_refl)
                  eq_refl)).
Defined.

Lemma literal_char_spec c :
  literal_char c = true -> Ascii.eqb c "@" = false /\ Py.contains c "[]" = false.
Proof. each_char c. Qed.

Lemma literal_chars_facts s :
  all_chars literal_char s = true ->
  Py.contains "@" s = false /\ head_in "[]" s = false.
Proof.
  induction s as [|c s IH]; simpl; [auto|].
  intros H. apply andb_true_iff in H as [Hc Hs].
  destruct (literal_char_spec c Hc) as [Hat Hbr].
  destruct (IH Hs) as [H1 _]. now rewrite Hat, H1.
Qed.

Lemma rstrip_nonempty chars c s :
  Py.contains c s = true -> Py.contains c chars = false ->
  Py.rstrip chars s <> "".
Proof.
  intros Hs Hc. induction s as [|x s IH]; simpl in *; [discriminate|].
  destruct (Py.rstrip chars s) eqn:E; [|discriminate].
  destruct (Ascii.eqb_spec x c) as [->|Hne].
  - rewrite Hc. discriminate.
  - simpl in Hs. now contradiction IH.
Qed.

Lemma rstrip_cons_keep chars x s :
  Py.rstrip chars s <> "" -> Py.rstrip chars (String x s) = String x (Py.rstrip chars s).
Proof. simpl. destruct (Py.rstrip chars s); [contradiction|reflexivity]. Qed.

(** The part left of the first [c] is not touched by a strip on the
    right, when [c] is not stripped. *)
Lemma before_first_rstrip_app chars c (a b : string) :
  Py.contains c a = true -> Py.contains c chars = false ->
  before_first c (Py.rstrip chars (a +:+ b)) = before_first c a.
Proof.
  intros Ha Hc. induction a as [|x a IH]; [discriminate|].
  rewrite app_cons.
  assert (Py.contains c (String x (a +:+ b)) = true) as Hall.
  { rewrite <- app_cons, contains_app, Ha. reflexivity. }
  destruct (Ascii.eqb_spec x c) as [->|Hne].
  - simpl. destruct (Py.rstrip chars (a +:+ b)); simpl;
      rewrite ?Hc; simpl; now rewrite Ascii.eqb_refl.
  - simpl in Ha. apply Ascii.eqb_neq in Hne. rewrite Hne in Ha. simpl in Ha.
    rewrite rstrip_cons_keep.
    + simpl. rewrite Hne. now rewrite (IH Ha).
    + apply (rstrip_nonempty chars c); [|exact Hc].
      rewrite contains_app, Ha. reflexivity.
Qed.

Lemma length_before_first_lt c s :
  Py.contains c s = true -> String.length (before_first c s) < String.length s.
Proof.
  induction s as [|x s IH]; simpl; [discriminate|].
  destruct (Ascii.eqb x c); simpl; [lia|]. intros H. specialize (IH H). lia.
Qed.

Lemma normalize_described_bracketed a b :
  all_chars literal_char a = true -> Py.contains ":" a = true ->
  Py.lower (before_first ":" (Py.strip "[]" ("[" +:+ a +:+ b)))
  = Py.lower (before_first ":" a).
Proof.
  intros Ha Hc. destruct (literal_chars_facts a Ha) as [_ Hh].
  rewrite app_cons, app_empty. unfold Py.strip.
  assert (Py.lstrip "[]" (String "[" (a +:+ b)) = a +:+ b) as ->.
  { cbn [Py.lstrip]. change (Py.contains "[" "[]") with true. cbv iota.
    apply lstrip_app_keep; [exact Hh|]. destruct a; [discriminate|discriminate]. }
  now rewrite before_first_rstrip_app.
Qed.

(** X2.  A bracketed IPv6 literal is cut at its first colon: when the text
    between the brackets holds a colon (and no at sign or bracket), the
    normalizer returns only what stands before that colon, lowercased, with
    or without a port after the closing bracket, and never the address
    itself. *)
Theorem normalize_host_ipv6_literal (a p : string) :
  all_chars literal_char a = true ->
  Py.contains ":" a = true ->
  Py.contains "@" p = false ->
  normalize_host ("[" +:+ a +:+ "]") = Py.lower (before_first ":" a)
  /\ normalize_host ("[" +:+ a +:+ "]:" +:+ p) = Py.lower (before_first ":" a)
  /\ Py.lower (before_first ":" a) <> Py.lower a.
Proof.
  intros Ha Hc Hp. destruct (literal_chars_facts a Ha) as [Hat _].
  split; [|split].
  - rewrite normalize_host_unfold. unfold normalize_described, drop_userinfo.
    assert (Py.contains "@" ("[" +:+ a +:+ "]") = false) as ->.
    { rewrite !contains_app, Hat. reflexivity. }
    apply normalize_described_bracketed; assumption.
  - rewrite normalize_host_unfold. unfold normalize_described, drop_userinfo.
    assert (Py.contains "@" ("[" +:+ a +:+ "]:" +:+ p) = false) as ->.
    { rewrite !contains_app, Hat, Hp. reflexivity. }
    apply normalize_described_bracketed; assumption.
  - intros H. pose proof (length_before_first_lt ":" a Hc) as Hlt.
    assert (String.length (Py.lower (before_first ":" a))
            = String.length (Py.lower a)) as Hl by now rewrite H.
    rewrite !length_lower in Hl. lia.
Qed.

Lemma normalize_host_ipv6_literal_witness :
  (all_chars literal_char "2001:db8::1" = true
   /\ Py.contains ":" "2001:db8::1" = true
   /\ Py.contains "@" "443" = false)
  /\ normalize_host ("[" +:+ "2001:db8::1" +:+ "]:" +:+ "443") = "2001".
Proof.
  split; [repeat split|].
  exact (proj1 (proj2 (normalize_host_ipv6_literal "2001:db8::1" "443"
                         eq_refl eq_refl eq_refl))).
Defined.

(** ** The generic domain pattern *)

Lemma head_dotted_run s : Re.head_is_label (Re.dotted_run s) = Re.head_is_label s.
Proof.
  destruct s as [|c s]; [reflexivity|]. simpl.
  destruct (Re.is_label_char c) eqn:E; [simpl; exact E|].
  destruct (Ascii.eqb_spec c ".") as [->|Hne]; simpl; [|reflexivity].
  destruct (Re.head_is_label s); reflexivity.
Qed.

Lemma dotted_run_well s : well_dotted (Re.dotted_run s) = true.
Proof.
  induction s as [|c s IH]; [reflexivity|]. simpl.
  destruct (Re.is_label_char c) eqn:E.
  - simpl. now rewrite E, IH.
  - destruct (Ascii.eqb c ".") eqn:Ed; simpl; [|reflexivity].
    destruct (Re.head_is_label s) eqn:Eh; simpl; [|reflexivity].
    now rewrite E, Ed, head_dotted_run, Eh, IH.
Qed.

Lemma dotted_run_prefix s : exists post, s = Re.dotted_run s +:+ post.
Proof.
  induction s as [|c s [post IH]]; [now exists ""|]. simpl.
  destruct (Re.is_label_char c || Ascii.eqb c "." && Re.head_is_label s) eqn:E.
  - exists post. destruct (Re.is_label_char c); simpl in E; [|rewrite E];
      rewrite app_cons; now f_equal.
  - exists (String c s). apply orb_false_iff in E as [-> ->]. reflexivity.
Qed.

Lemma dotted_run_fixed s : well_dotted s = true -> Re.dotted_run s = s.
Proof.
  induction s as [|c s IH]; [reflexivity|]. simpl.
  intros H. apply andb_true_iff in H as [Hc Hs].
  destruct (Re.is_label_char c); simpl in *; [now rewrite IH|].
  rewrite Hc. now rewrite IH.
Qed.

Lemma domain_match_shape s m :
  Re.domain_match s = Some m ->
  dotted_name m = true /\ exists post, s = m +:+ post.
Proof.
  unfold Re.domain_match.
  destruct (Re.head_is_label s && Py.contains "." (Re.dotted_run s)) eqn:E;
    [|discriminate].
  intros H. injection H as <-. apply andb_true_iff in E as [Eh Ec].
  split; [|apply dotted_run_prefix].
  unfold dotted_name. now rewrite head_dotted_run, Eh, dotted_run_well, Ec.
Qed.

Lemma findall_from_shape k s m :
  In m (Re.findall_from k s) ->
  dotted_name m = true /\ exists pre post, s = pre +:+ m +:+ post.
Proof.
  revert k. induction s as [|c s IH]; intros k; simpl; [contradiction|].
  assert (forall j, In m (Re.findall_from j s) ->
                    dotted_name m = true
                    /\ exists pre post, String c s = pre +:+ m +:+ post) as Hrec.
  { intros j Hj. destruct (IH j Hj) as [Hd [pre [post ->]]].
    split; [exact Hd|]. exists (String c pre), post. now rewrite app_cons. }
  destruct k as [|k]; [|apply Hrec].
  destruct (Re.domain_match (String c s)) as [m'|] eqn:E; [|apply Hrec].
  intros [<-|Hin]; [|now apply (Hrec _ Hin)].
  destruct (domain_match_shape _ _ E) as [Hd [post Hp]].
  split; [exact Hd|]. exists "", post. now rewrite app_empty.
Qed.

Lemma label_is_hostname c : Re.is_label_char c = true -> hostname_char c = true.
Proof. unfold hostname_char. now intros ->. Qed.

Lemma hostname_is_host c : hostname_char c = true -> host_char c = true.
Proof. each_char c. Qed.

Lemma well_dotted_chars s : well_dotted s = true -> all_chars hostname_char s = true.
Proof.
  induction s as [|c s IH]; [reflexivity|]. simpl.
  intros H. apply andb_true_iff in H as [Hc Hs]. rewrite (IH Hs), andb_true_r.
  unfold hostname_char. destruct (Re.is_label_char c); [reflexivity|].
  simpl in *. apply andb_true_iff in Hc as [-> _]. reflexivity.
Qed.

Lemma all_chars_impl (p q : ascii -> bool) s :
  (forall c, p c = true -> q c = true) ->
  all_chars p s = true -> all_chars q s = true.
Proof.
  intros Hpq. induction s as [|c s IH]; [reflexivity|]. simpl.
  intros H. apply andb_true_iff in H as [Hc Hs]. now rewrite (Hpq _ Hc), IH.
Qed.

Lemma label_not_dot c : Re.is_label_char c = true -> Ascii.eqb c "." = false.
Proof. each_char c. Qed.

(** In a well dotted string every part but the first is non-empty, and the
    first is non-empty when the string starts with a label character. *)
Lemma well_dotted_parts s :
  well_dotted s = true ->
  match Py.split_all "." s with
  | p :: ps => (Re.head_is_label s = true -> p <> "")
               /\ forall l, In l ps -> l <> ""
  | [] => False
  end.
Proof.
  induction s as [|c s IH]; simpl.
  - intros _. split; [discriminate|]. intros l [].
  - intros H. apply andb_true_iff in H as [Hc Hs]. specialize (IH Hs).
    destruct (Py.split_all "." s) as [|p ps] eqn:E; [contradiction|].
    destruct IH as [IH1 IH2].
    destruct (Re.is_label_char c) eqn:El.
    + rewrite (label_not_dot c El). split; [discriminate|exact IH2].
    + simpl in Hc. apply andb_true_iff in Hc as [Hd Hh]. rewrite Hd.
      split; [discriminate|]. intros l [<-|Hl]; [now apply IH1|now apply IH2].
Qed.

Lemma split_all_length_dot s :
  Py.contains "." s = true -> 2 <= List.length (Py.split_all "." s).
Proof.
  induction s as [|c s IH]; simpl; [discriminate|].
  pose proof (split_all_nonempty "." s) as Hne.
  destruct (Ascii.eqb c "."); simpl.
  - intros _. destruct (Py.split_all "." s); [contradiction|simpl; lia].
  - intros H. specialize (IH H).
    destruct (Py.split_all "." s); [contradiction|simpl in *; lia].
Qed.

Lemma dotted_name_labels m :
  dotted_name m = true ->
  all_chars hostname_char m = true
  /\ 2 <= List.length (labels m)
  /\ (forall l, In l (labels m) -> l <> "")
  /\ normalize_host m = Py.lower m.
Proof.
  unfold dotted_name. intros H.
  apply andb_true_iff in H as [H Hdot]. apply andb_true_iff in H as [Hh Hw].
  pose proof (well_dotted_chars m Hw) as Hc.
  split; [exact Hc|]. split; [now apply split_all_length_dot|]. split.
  - pose proof (well_dotted_parts m Hw) as Hp. unfold labels.
    destruct (Py.split_all "." m) as [|p ps]; [contradiction|].
    destruct Hp as [H1 H2]. intros l [<-|Hl]; [now apply H1|now apply H2].
  - apply normalize_host_plain.
    exact (all_chars_impl _ _ m hostname_is_host Hc).
Qed.

(** X3.  Every string found by the generic domain pattern in a token is a
    piece of that token made of label characters and dots, with at least
    two labels and no empty label (no leading, trailing or doubled dot);
    the candidate recorded for it is its lowercase form. *)
Theorem domain_findall_matches (s m : string) :
  In m (Re.domain_findall s) ->
  (exists pre post, s = pre +:+ m +:+ post)
  /\ all_chars hostname_char m = true
  /\ 2 <= List.length (labels m)
  /\ (forall l, In l (labels m) -> l <> "")
  /\ normalize_host m = Py.lower m.
Proof.
  intros H. destruct (findall_from_shape 0 s m H) as [Hd Hsub].
  split; [exact Hsub|]. now apply dotted_name_labels.
Qed.

Lemma domain_findall_matches_witness :
  In "b.example.org" (Re.domain_findall "url=//b.example.org./x")
  /\ normalize_host "b.example.org" = Py.lower "b.example.org".
Proof.
  assert (In "b.example.org" (Re.domain_findall "url=//b.example.org./x")) as H.
  { vm_compute. left. reflexivity. }
  split; [exact H|].
  exact (proj2 (proj2 (proj2 (proj2 (domain_findall_matches _ _ H))))).
Defined.

Lemma findall_skip_all k s : String.length s <= k -> Re.findall_from k s = [].
Proof.
  revert k. induction s as [|c s IH]; intros k Hk; [reflexivity|].
  simpl in *. destruct k as [|k]; [lia|]. apply IH. lia.
Qed.

Lemma domain_findall_dotted t : dotted_name t = true -> Re.domain_findall t = [t].
Proof.
  unfold dotted_name. intros H.
  apply andb_true_iff in H as [H Hdot]. apply andb_true_iff in H as [Hh Hw].
  destruct t as [|c t]; [discriminate|].
  unfold Re.domain_findall. cbn [Re.findall_from].
  unfold Re.domain_match. rewrite (dotted_run_fixed _ Hw), Hh, Hdot.
  cbn [andb]. f_equal. apply findall_skip_all. simpl. lia.
Qed.

(** ** The Host pattern *)

Lemma take_drop_while p s : s = Re.take_while p s +:+ Re.drop_while p s.
Proof.
  induction s as [|c s IH]; [reflexivity|]. simpl.
  destruct (p c); [|reflexivity]. rewrite app_cons. now f_equal.
Qed.

Lemma take_while_all p s : all_chars p (Re.take_while p s) = true.
Proof.
  induction s as [|c s IH]; [reflexivity|]. simpl.
  destruct (p c) eqn:E; [|reflexivity]. simpl. now rewrite E, IH.
Qed.

Lemma app_assoc_string (a b c : string) : (a +:+ b) +:+ c = a +:+ b +:+ c.
Proof.
  induction a as [|x a IH]; [reflexivity|]. rewrite !app_cons. now f_equal.
Qed.

Lemma host_value_capture r v :
  Re.host_value r = Some v ->
  v <> "" /\ all_chars Re.is_value_char v = true
  /\ Py.contains ":" r = true
  /\ exists pre post, r = pre +:+ v +:+ post.
Proof.
  unfold Re.host_value.
  pose proof (take_drop_while Py.is_space r) as Hr.
  destruct (Re.drop_while Py.is_space r) as [|c r'] eqn:E; [discriminate|].
  destruct (Ascii.eqb_spec c ":") as [->|_]; [|discriminate].
  cbv zeta.
  pose proof (take_drop_while Py.is_space r') as Hr'.
  pose proof (take_drop_while Re.is_value_char (Re.drop_while Py.is_space r')) as Hv.
  destruct (String.eqb_spec
              (Re.take_while Re.is_value_char (Re.drop_while Py.is_space r')) "")
    as [_|Hne]; [discriminate|].
  intros H. injection H as <-.
  split; [exact Hne|]. split; [apply take_while_all|]. split.
  - rewrite Hr, contains_app. simpl. apply orb_true_r.
  - exists (Re.take_while Py.is_space r +:+ ":" +:+ Re.take_while Py.is_space r').
    exists (Re.drop_while Re.is_value_char (Re.drop_while Py.is_space r')).
    rewrite !app_assoc_string, <- Hv, app_cons, app_empty, <- Hr'. exact Hr.
Qed.

Lemma host_match_capture s v :
  Re.host_match s = Some v ->
  v <> "" /\ all_chars Re.is_value_char v = true
  /\ Py.contains ":" s = true
  /\ exists pre post, s = pre +:+ v +:+ post.
Proof.
  unfold Re.host_match.
  destruct s as [|c1 [|c2 [|c3 [|c4 r]]]]; try discriminate.
  destruct (String.eqb _ "host"); [|discriminate].
  intros H. destruct (host_value_capture r v H) as [H1 [H2 [H3 [pre [post ->]]]]].
  split; [exact H1|]. split; [exact H2|]. split.
  - simpl. rewrite H3. now rewrite !orb_true_r.
  - exists (String c1 (String c2 (String c3 (String c4 pre)))), post.
    now rewrite !app_cons.
Qed.

Lemma host_search_capture_aux s v :
  Re.host_search s = Some v ->
  v <> "" /\ all_chars Re.is_value_char v = true
  /\ Py.contains ":" s = true
  /\ exists pre post, s = pre +:+ v +:+ post.
Proof.
  induction s as [|c s IH]; rewrite host_search_unfold.
  - destruct (Re.host_match "") eqn:E; [|discriminate].
    intros H. injection H as <-. now apply host_match_capture.
  - destruct (Re.host_match (String c s)) eqn:E.
    + intros H. injection H as <-. now apply host_match_capture.
    + intros H. destruct (IH H) as [H1 [H2 [H3 [pre [post ->]]]]].
      split; [exact H1|]. split; [exact H2|]. split.
      * simpl. rewrite H3. apply orb_true_r.
      * exists (String c pre), post. now rewrite app_cons.
Qed.

(** X4.  When the Host pattern matches a header, the captured value is a
    non-empty piece of the header without semicolon, comma, white space or
    quote; a header without a colon is never matched, so that it is left to
    the generic domain pattern. *)
Theorem host_search_capture (hdr : string) :
  (forall v, Re.host_search hdr = Some v ->
             v <> "" /\ all_chars Re.is_value_char v = true
             /\ exists pre post, hdr = pre +:+ v +:+ post)
  /\ (Py.contains ":" hdr = false ->
      Re.host_search hdr = None
      /\ add_header hdr ∅ = add_hosts (Re.domain_findall hdr) ∅).
Proof.
  split.
  - intros v H. destruct (host_search_capture_aux hdr v H) as [H1 [H2 [_ H4]]].
    auto.
  - intros Hc.
    assert (Re.host_search hdr = None) as Hn.
    { destruct (Re.host_search hdr) as [v|] eqn:E; [|reflexivity].
      destruct (host_search_capture_aux hdr v E) as [_ [_ [H3 _]]]. congruence. }
    split; [exact Hn|]. unfold add_header. now rewrite Hn.
Qed.

Lemma host_search_capture_witness :
  (Re.host_search "Host: Api.Example.net; x" = Some "Api.Example.net"
   /\ Py.contains ":" "X-Origin api.example.net" = false)
  /\ ("Api.Example.net" <> ""
      /\ all_chars Re.is_value_char "Api.Example.net" = true
      /\ exists pre post,
           "Host: Api.Example.net; x" = pre +:+ "Api.Example.net" +:+ post)
  /\ Re.host_search "X-Origin api.example.net" = None.
Proof.
  split; [split; reflexivity|]. split.
  - exact (proj1 (host_search_capture "Host: Api.Example.net; x")
             "Api.Example.net" eq_refl).
  - exact (proj1 (proj2 (host_search_capture "X-Origin api.example.net") eq_refl)).
Defined.

(** ** The comma separated value of [--resolve] and [--connect-to] *)

Lemma drop_while_lstrip s : Re.drop_while Py.is_space s = Py.lstrip_ws s.
Proof. induction s as [|c s IH]; [reflexivity|]. simpl. now rewrite IH. Qed.

Lemma space_not_comma c : Py.is_space c = true -> Ascii.eqb c "," = false.
Proof. each_char c. Qed.

Lemma spaces_no_comma s : all_chars Py.is_space s = true -> Py.contains "," s = false.
Proof.
  induction s as [|c s IH]; [reflexivity|]. simpl.
  intros H. apply andb_true_iff in H as [Hc Hs].
  now rewrite (space_not_comma c Hc), IH.
Qed.

Lemma comma_match_some s n :
  Re.comma_match s = Some n ->
  exists r, s = Re.take_while Py.is_space s +:+ String "," r
            /\ n = String.length (Re.take_while Py.is_space s +:+ ","
                                  +:+ Re.take_while Py.is_space r).
Proof.
  unfold Re.comma_match. pose proof (take_drop_while Py.is_space s) as Hs.
  destruct (Re.drop_while Py.is_space s) as [|c r]; [discriminate|].
  destruct (Ascii.eqb_spec c ",") as [->|_]; [|discriminate].
  intros H. injection H as <-. exists r. split; [exact Hs|].
  rewrite !length_append. simpl. lia.
Qed.

Lemma comma_match_spaces ws r :
  all_chars Py.is_space ws = true -> Re.comma_match (ws +:+ String "," r) <> None.
Proof.
  intros H. unfold Re.comma_match. rewrite (drop_while_app_all _ _ _ H).
  simpl. discriminate.
Qed.

Lemma split_from_skip a r :
  Re.split_from (String.length a) (a +:+ r) = Re.split_from 0 r.
Proof.
  induction a as [|x a IH]; [reflexivity|]. rewrite app_cons. exact IH.
Qed.

Lemma split_from_nonempty k s : Re.split_from k s <> [].
Proof.
  revert k. induction s as [|c s IH]; intros k; simpl; [discriminate|].
  destruct k; [|apply IH].
  destruct (Re.comma_match (String c s)); [discriminate|].
  destruct (Re.split_from 0 s); discriminate.
Qed.

(** The two cases of the scan at a character. *)
Lemma split_from_comma s n r :
  s = Re.take_while Py.is_space s +:+ String "," r ->
  Re.comma_match s = Some n ->
  Re.split_from 0 s = "" :: Re.split_from 0 (Py.lstrip_ws r).
Proof.
  intros Hs Hm. destruct (comma_match_some s n Hm) as [r' [Hs' Hn]].
  assert (r' = r) as ->.
  { rewrite Hs' in Hs at 1. apply String.app_inj in Hs. now injection Hs. }
  destruct s as [|c s']; [discriminate|].
  cbn [Re.split_from]. rewrite Hm. f_equal.
  assert (n = S (n - 1)) as Hn1.
  { rewrite Hn, !length_append. simpl. lia. }
  change (Re.split_from (n - 1) s')
    with (Re.split_from (S (n - 1)) (String c s')).
  rewrite <- Hn1, Hn.
  rewrite Hs' at 2.
  rewrite (take_drop_while Py.is_space r) at 2.
  rewrite <- drop_while_lstrip.
  assert (Re.take_while Py.is_space (String c s')
            +:+ String "," (Re.take_while Py.is_space r +:+ Re.drop_while Py.is_space r)
          = (Re.take_while Py.is_space (String c s') +:+ ","
               +:+ Re.take_while Py.is_space r)
              +:+ Re.drop_while Py.is_space r) as ->.
  { rewrite !app_assoc_string. reflexivity. }
  apply split_from_skip.
Qed.

Lemma split_all_lstrip s :
  Py.split_all "," (Py.lstrip_ws s)
  = match Py.split_all "," s with
    | q :: qs => Py.lstrip_ws q :: qs
    | [] => []
    end.
Proof.
  induction s as [|c s IH]; [reflexivity|].
  cbn [Py.lstrip_ws]. destruct (Py.is_space c) eqn:E.
  - rewrite IH. cbn [Py.split_all]. rewrite (space_not_comma c E).
    pose proof (split_all_nonempty "," s) as Hne.
    destruct (Py.split_all "," s); [contradiction|].
    cbn [Py.lstrip_ws]. now rewrite E.
  - cbn [Py.split_all]. destruct (Ascii.eqb c ","); [reflexivity|].
    pose proof (split_all_nonempty "," s) as Hne.
    destruct (Py.split_all "," s); [contradiction|].
    cbn [Py.lstrip_ws]. now rewrite E.
Qed.

Lemma rstrip_ws_empty s : Py.rstrip_ws s = "" -> all_chars Py.is_space s = true.
Proof.
  induction s as [|c s IH]; [reflexivity|]. simpl.
  destruct (Py.rstrip_ws s); [|discriminate].
  destruct (Py.is_space c); [|discriminate]. intros _. now apply IH.
Qed.

Lemma rstrip_ws_spaces s : all_chars Py.is_space s = true -> Py.rstrip_ws s = "".
Proof.
  induction s as [|c s IH]; [reflexivity|]. simpl.
  intros H. apply andb_true_iff in H as [Hc Hs]. now rewrite (IH Hs), Hc.
Qed.

Lemma split_all_two sep s p q qs :
  Py.split_all sep s = p :: q :: qs ->
  exists r, s = p +:+ String sep r /\ Py.split_all sep r = q :: qs.
Proof.
  revert p. induction s as [|c s IH]; intros p; simpl; [discriminate|].
  destruct (Ascii.eqb_spec c sep) as [->|Hne].
  - intros H. injection H as <- H. exists s. now rewrite app_empty.
  - destruct (Py.split_all sep s) as [|p' ps'] eqn:E; [discriminate|].
    intros H. injection H as <- ->.
    destruct (IH p' eq_refl) as [r [-> Hr]].
    exists r. now rewrite app_cons.
Qed.

Lemma length_lstrip_ws s : String.length (Py.lstrip_ws s) <= String.length s.
Proof.
  induction s as [|c s IH]; simpl; [lia|].
  destruct (Py.is_space c); simpl; lia.
Qed.

Lemma comma_is_matched s : Re.comma_match (String "," s) <> None.
Proof. unfold Re.comma_match. simpl. discriminate. Qed.

Lemma split_commas_trim_aux n :
  forall s, String.length s <= n ->
            Re.split_from 0 s = trim_parts (Py.split_all "," s).
Proof.
  induction n as [|n IH]; intros s Hn.
  { destruct s; [reflexivity|simpl in Hn; lia]. }
  destruct s as [|c s']; [reflexivity|].
  destruct (Re.comma_match (String c s')) as [k|] eqn:Em.
  - destruct (comma_match_some _ _ Em) as [r [Hs Hk]].
    rewrite (split_from_comma _ k r Hs Em).
    pose proof (take_while_all Py.is_space (String c s')) as Hws.
    assert (String.length r < String.length (String c s')) as Hlen.
    { rewrite Hs, length_append. simpl. lia. }
    rewrite Hs at 1.
    rewrite split_all_app, (split_all_no_sep _ _ (spaces_no_comma _ Hws)).
    rewrite IH by (pose proof (length_lstrip_ws r); lia).
    rewrite split_all_lstrip.
    pose proof (split_all_nonempty "," r) as Hne.
    destruct (Py.split_all "," r) as [|q qs]; [contradiction|].
    cbn [app trim_parts]. rewrite (rstrip_ws_spaces _ Hws).
    destruct qs; reflexivity.
  - cbn [Re.split_from]. rewrite Em.
    rewrite IH by (simpl in Hn; lia).
    cbn [Py.split_all].
    destruct (Ascii.eqb_spec c ",") as [->|Hc].
    { exfalso. now apply (comma_is_matched s'). }
    pose proof (split_all_nonempty "," s') as Hne.
    destruct (Py.split_all "," s') as [|p0 ps] eqn:E; [contradiction|].
    destruct ps as [|q qs]; [reflexivity|].
    cbn [trim_parts Py.rstrip_ws].
    destruct (Py.rstrip_ws p0) eqn:Er; [|reflexivity].
    destruct (Py.is_space c) eqn:Ec; [|reflexivity].
    exfalso. destruct (split_all_two _ _ _ _ _ E) as [r [-> _]].
    apply (comma_match_spaces (String c p0) r); [|rewrite app_cons; exact Em].
    simpl. now rewrite Ec, (rstrip_ws_empty _ Er).
Qed.

Lemma trim_rest_length l : List.length (trim_rest l) = List.length l.
Proof.
  induction l as [|q [|q' qs] IH]; [reflexivity|reflexivity|].
  cbn [trim_rest List.length] in *. now rewrite IH.
Qed.

Lemma trim_parts_length l : List.length (trim_parts l) = List.length l.
Proof.
  destruct l as [|p [|q qs]]; [reflexivity|reflexivity|].
  cbn [trim_parts List.length]. now rewrite trim_rest_length.
Qed.

Lemma split_all_length sep s :
  List.length (Py.split_all sep s) = count_char sep s + 1.
Proof.
  induction s as [|c s IH]; [reflexivity|]. simpl.
  pose proof (split_all_nonempty sep s) as Hne.
  destruct (Ascii.eqb c sep); simpl; [now rewrite IH|].
  destruct (Py.split_all sep s); [contradiction|]. simpl in *. lia.
Qed.

Lemma split_all_parts_clean sep s p :
  In p (Py.split_all sep s) -> Py.contains sep p = false.
Proof.
  revert p. induction s as [|c s IH]; intros p; simpl.
  - intros [<-|[]]. reflexivity.
  - pose proof (split_all_nonempty sep s) as Hne.
    destruct (Ascii.eqb c sep) eqn:E.
    + intros [<-|H]; [reflexivity|now apply IH].
    + destruct (Py.split_all sep s) as [|q qs]; [contradiction|].
      intros [<-|H]; [|apply IH; now right].
      simpl. rewrite E. apply IH. now left.
Qed.

Lemma contains_lstrip_ws c s :
  Py.contains c s = false -> Py.contains c (Py.lstrip_ws s) = false.
Proof.
  induction s as [|x s IH]; [reflexivity|]. simpl.
  intros H. apply orb_false_iff in H as [Hx Hs].
  destruct (Py.is_space x); [now apply IH|]. simpl. now rewrite Hx, Hs.
Qed.

Lemma contains_rstrip_ws c s :
  Py.contains c s = false -> Py.contains c (Py.rstrip_ws s) = false.
Proof.
  induction s as [|x s IH]; [reflexivity|]. simpl.
  intros H. apply orb_false_iff in H as [Hx Hs]. specialize (IH Hs).
  destruct (Py.rstrip_ws s).
  - destruct (Py.is_space x); [reflexivity|]. simpl. now rewrite Hx.
  - simpl in *. now rewrite Hx, IH.
Qed.

Lemma trim_rest_clean c l p :
  (forall q, In q l -> Py.contains c q = false) ->
  In p (trim_rest l) -> Py.contains c p = false.
Proof.
  induction l as [|q [|q' qs] IH]; intros Hl; [intros []| |].
  - intros [<-|[]]. apply contains_lstrip_ws, Hl. now left.
  - cbn [trim_rest]. intros [<-|H].
    + apply contains_rstrip_ws, contains_lstrip_ws, Hl. now left.
    + apply IH; [|exact H]. intros q0 Hq. apply Hl. now right.
Qed.

Lemma trim_parts_clean c l p :
  (forall q, In q l -> Py.contains c q = false) ->
  In p (trim_parts l) -> Py.contains c p = false.
Proof.
  destruct l as [|q [|q' qs]]; intros Hl; [intros []| |].
  - intros [<-|[]]. apply Hl. now left.
  - cbn [trim_parts]. intros [<-|H].
    + apply contains_rstrip_ws, Hl. now left.
    + apply (trim_rest_clean c (q' :: qs)); [|exact H].
      intros q0 Hq. apply Hl. now right.
Qed.

(** X5.  The value of [--resolve] and [--connect-to] is cut at its commas,
    and the white space that touches a comma is dropped with it: the parts
    are those of a plain split at the commas, trimmed on the side of each
    comma.  So there is one part more than there are commas, a value
    without a comma is a single part taken as it is, and no part holds a
    comma. *)
Theorem split_commas_spec (s : string) :
  Re.split_commas s = trim_parts (Py.split_all "," s)
  /\ List.length (Re.split_commas s) = count_char "," s + 1
  /\ (Py.contains "," s = false -> Re.split_commas s = [s])
  /\ (forall p, In p (Re.split_commas s) -> Py.contains "," p = false).
Proof.
  assert (Re.split_commas s = trim_parts (Py.split_all "," s)) as H.
  { apply (split_commas_trim_aux (String.length s)). lia. }
  split; [exact H|]. rewrite H. split; [|split].
  - now rewrite trim_parts_length, split_all_length.
  - intros Hc. now rewrite (split_all_no_sep _ _ Hc).
  - intros p. apply trim_parts_clean. intros q. apply split_all_parts_clean.
Qed.

Lemma split_commas_spec_witness :
  Py.contains "," " example.org:443:10.0.0.1 " = false
  /\ Re.split_commas " example.org:443:10.0.0.1 " = [" example.org:443:10.0.0.1 "].
Proof.
  split; [reflexivity|].
  exact (proj1 (proj2 (proj2 (split_commas_spec " example.org:443:10.0.0.1 ")))
           eq_refl).
Defined.

Lemma split_commas_no_comma s : Py.contains "," s = false -> Re.split_commas s = [s].
Proof.
  intros Hc. unfold Re.split_commas.
  rewrite (split_commas_trim_aux (String.length s)) by lia.
  now rewrite (split_all_no_sep _ _ Hc).
Qed.

Lemma add_resolve_no_comma val :
  Py.contains "," val = false ->
  add_resolve val ∅
  = if String.eqb (before_first ":" val) "" then ∅
    else {[normalize_host (before_first ":" val)]}.
Proof.
  intros Hc. unfold add_resolve. rewrite (split_commas_no_comma _ Hc).
  simpl. rewrite split_first.
  destruct (String.eqb (before_first ":" val) ""); [reflexivity|]. set_solver.
Qed.

(** X6.  From a [--resolve] or [--connect-to] value without a comma only
    the first colon-separated field is taken: [host:port:address] gives the
    lowercased host and nothing of the port or the address, and a value
    whose first field is empty gives nothing. *)
Theorem add_resolve_single (h rest : string) :
  Py.contains "," rest = false ->
  (all_chars host_char h = true -> h <> "" -> Py.contains "," h = false ->
   add_resolve (h +:+ ":" +:+ rest) ∅ = {[Py.lower h]})
  /\ add_resolve (":" +:+ rest) ∅ = ∅.
Proof.
  intros Hr. split.
  - intros Hh Hne Hc.
    destruct (host_chars_facts h Hh) as [_ [Hcol _]].
    rewrite add_resolve_no_comma
      by (rewrite !contains_app, Hc, Hr; reflexivity).
    rewrite app_cons, app_empty, (before_first_app _ _ _ Hcol).
    destruct (String.eqb_spec h ""); [contradiction|].
    now rewrite (normalize_host_plain h Hh).
  - rewrite add_resolve_no_comma
      by (rewrite !contains_app, Hr; reflexivity).
    reflexivity.
Qed.

Lemma add_resolve_single_witness :
  (Py.contains "," "443:93.184.216.34" = false
   /\ all_chars host_char "Example.org" = true
   /\ Py.contains "," "Example.org" = false)
  /\ add_resolve ("Example.org" +:+ ":" +:+ "443:93.184.216.34") ∅
     = {[Py.lower "Example.org"]}.
Proof.
  split; [repeat split|].
  refine (proj1 (add_resolve_single "Example.org" "443:93.184.216.34" eq_refl)
            eq_refl _ eq_refl).
  discriminate.
Defined.

(** ** The scan over command lines *)

Section Scan.
Context `{L : Library}.

Lemma scan_cons_plain t rest :
  flag_takes_value t = false ->
  scan false (t :: rest) = token_hosts t ∪ scan false rest.
Proof.
  intros H. cbn [scan]. rewrite H. destruct rest; [simpl; set_solver|reflexivity].
Qed.

Lemma scan_flag_free l1 l2 :
  forallb (fun t => negb (flag_takes_value t)) l1 = true ->
  scan false (l1 ++ l2)%list = scan false l1 ∪ scan false l2.
Proof.
  induction l1 as [|t l1 IH]; intros H.
  - simpl. set_solver.
  - cbn [forallb] in H. apply andb_true_iff in H as [Ht Hl].
    apply negb_true_iff in Ht.
    change ((t :: l1) ++ l2)%list with (t :: (l1 ++ l2))%list.
    rewrite !(scan_cons_plain _ _ Ht), (IH Hl). set_solver.
Qed.

Lemma scan_head_hosts t rest : token_hosts t ⊆ scan false (t :: rest).
Proof.
  cbn [scan]. destruct rest; [reflexivity|].
  destruct (flag_takes_value t); set_solver.
Qed.

(** X7.  Tokens that are not value-taking flags are scanned one by one:
    when no token of a first part of the command line is such a flag, the
    candidates of the whole line are those of the first part together with
    those of the rest. *)
Theorem extract_flag_free_app (l1 l2 : list string) :
  forallb (fun t => negb (flag_takes_value t)) l1 = true ->
  token_extract_domains (l1 ++ l2)%list
  = token_extract_domains l1 ∪ token_extract_domains l2.
Proof.
  intros H. rewrite !token_extract_domains_scan. now apply scan_flag_free.
Qed.

(** X8.  A value-taking flag that is the last token of the command line
    has no value to read; it is passed over without error and adds
    nothing, here after tokens that are not such flags. *)
Theorem extract_trailing_flag (l : list string) (t : string) :
  forallb (fun t => negb (flag_takes_value t)) l = true ->
  flag_takes_value t = true ->
  token_extract_domains (l ++ [t])%list = token_extract_domains l.
Proof.
  intros Hl Ht. rewrite !token_extract_domains_scan, (scan_flag_free _ _ Hl).
  rewrite <- (token_extract_domains_scan [t]), extract_singleton.
  rewrite (flag_token_hosts _ Ht). set_solver.
Qed.

(** X9.  A token that is a bare dotted host name is always found: after
    tokens that are not value-taking flags, and whatever follows it, its
    lowercase form is a candidate. *)
Theorem extract_bare_hostname (l1 l2 : list string) (t : string) :
  forallb (fun t => negb (flag_takes_value t)) l1 = true ->
  dotted_name t = true ->
  Py.lower t ∈ token_extract_domains (l1 ++ t :: l2)%list.
Proof.
  intros Hl Ht. rewrite token_extract_domains_scan, (scan_flag_free _ _ Hl).
  apply elem_of_union. right. apply scan_head_hosts.
  unfold token_hosts. apply elem_of_union. right.
  rewrite (domain_findall_dotted _ Ht). apply elem_of_add_hosts. right.
  exists t. split; [now left|].
  destruct (dotted_name_labels t Ht) as [_ [_ [_ Hn]]]. now rewrite Hn.
Qed.

(** X10.  A URL-bearing flag adds the normalized network location of its
    URL even when that location is empty, so that the empty string becomes
    a candidate, whereas the same URL as a token of its own adds nothing
    by the URL rule. *)
Theorem url_flag_empty_netloc (t u : string) (rest : list string) :
  one_of t ["--url"; "--url*"; "-I"; "--head"] = true ->
  is_url u = true ->
  urlparse_netloc u = Some "" ->
  "" ∈ token_extract_domains (t :: u :: rest)
  /\ add_direct_url u ∅ = ∅.
Proof.
  intros Ht Hu Hn. split.
  - rewrite (extract_cons_value _ _ _ (url_flag_takes_value _ Ht)).
    apply elem_of_union. left. apply elem_of_union. right.
    unfold value_hosts. rewrite Ht. unfold add_flag_url. rewrite Hu, Hn.
    apply elem_of_union. left. apply elem_of_singleton. reflexivity.
  - unfold add_direct_url. now rewrite Hu, Hn.
Qed.

End Scan.

Lemma add_direct_url_no_url (L : Library) t :
  is_url t = false -> @add_direct_url L t ∅ = ∅.
Proof. intros H. unfold add_direct_url. now rewrite H. Qed.

Lemma value_hosts_indep (L1 L2 : Library) t v :
  is_url v = false -> @value_hosts L1 t v = @value_hosts L2 t v.
Proof.
  intros H. unfold value_hosts, add_flag_url. rewrite H. reflexivity.
Qed.

Lemma scan_indep (L1 L2 : Library) tokens skip :
  forallb (fun t => negb (is_url t)) tokens = true ->
  @scan L1 skip tokens = @scan L2 skip tokens.
Proof.
  revert skip. induction tokens as [|t rest IH]; intros skip H; [reflexivity|].
  cbn [forallb] in H. apply andb_true_iff in H as [Ht Hr].
  apply negb_true_iff in Ht. cbn [scan].
  destruct skip; [now apply IH|].
  unfold token_hosts. rewrite !(add_direct_url_no_url _ _ Ht).
  destruct rest as [|v rest']; [reflexivity|].
  assert (is_url v = false) as Hv.
  { cbn [forallb] in Hr. apply andb_true_iff in Hr as [Hv _].
    now apply negb_true_iff in Hv. }
  rewrite (value_hosts_indep L1 L2 t v Hv), (IH true Hr), (IH false Hr).
  reflexivity.
Qed.

(** X11.  The URL parser is consulted only for tokens that start with
    [http://] or [https://]: on a command line without such a token the
    candidates are the same whatever the parser does. *)
Theorem extract_without_urls (L1 L2 : Library) (tokens : list string) :
  forallb (fun t => negb (is_url t)) tokens = true ->
  @token_extract_domains L1 tokens = @token_extract_domains L2 tokens.
Proof.
  intros H. rewrite !token_extract_domains_scan. now apply scan_indep.
Qed.

Lemma extract_flag_free_app_witness :
  forallb (fun t => negb (flag_takes_value t)) ["curl"; "-v"; "a.example.com"] = true
  /\ @token_extract_domains plain_library
       (["curl"; "-v"; "a.example.com"] ++ ["-H"; "Host: b.example.net"])%list
     = @token_extract_domains plain_library ["curl"; "-v"; "a.example.com"]
         ∪ @token_extract_domains plain_library ["-H"; "Host: b.example.net"].
Proof.
  split; [reflexivity|].
  exact (@extract_flag_free_app plain_library ["curl"; "-v"; "a.example.com"]
           ["-H"; "Host: b.example.net"] eq_refl).
Defined.

Lemma extract_trailing_flag_witness :
  (forallb (fun t => negb (flag_takes_value t)) ["curl"; "a.example.com"] = true
   /\ flag_takes_value "--resolve" = true)
  /\ @token_extract_domains plain_library (["curl"; "a.example.com"] ++ ["--resolve"])%list
     = @token_extract_domains plain_library ["curl"; "a.example.com"].
Proof.
  split; [split; reflexivity|].
  exact (@extract_trailing_flag plain_library ["curl"; "a.example.com"] "--resolve"
           eq_refl eq_refl).
Defined.

Lemma extract_bare_hostname_witness :
  (forallb (fun t => negb (flag_takes_value t)) ["curl"; "-s"] = true
   /\ dotted_name "Shop.Example.com" = true)
  /\ Py.lower "Shop.Example.com" ∈
       @token_extract_domains plain_library
         (["curl"; "-s"] ++ "Shop.Example.com" :: ["-o"; "out"])%list.
Proof.
  split; [split; reflexivity|].
  exact (@extract_bare_hostname plain_library ["curl"; "-s"] ["-o"; "out"]
           "Shop.Example.com" eq_refl eq_refl).
Defined.

Lemma url_flag_empty_netloc_witness :
  (one_of "--url" ["--url"; "--url*"; "-I"; "--head"] = true
   /\ is_url "http://" = true
   /\ @urlparse_netloc plain_library "http://" = Some "")
  /\ "" ∈ @token_extract_domains plain_library ["--url"; "http://"; "x"].
Proof.
  split; [repeat split|].
  exact (proj1 (@url_flag_empty_netloc plain_library "--url" "http://" ["x"]
                  eq_refl eq_refl eq_refl)).
Defined.

Lemma extract_without_urls_witness :
  forallb (fun t => negb (is_url t)) ["curl"; "-H"; "Host: a.example.com"] = true
  /\ @token_extract_domains plain_library ["curl"; "-H"; "Host: a.example.com"]
     = @token_extract_domains
         {| urlparse_netloc := fun _ => None;
            idna_decode := fun _ => None;
            shlex_split := fun _ => None |}
         ["curl"; "-H"; "Host: a.example.com"].
Proof.
  split; [reflexivity|].
  exact (extract_without_urls plain_library _
           ["curl"; "-H"; "Host: a.example.com"] eq_refl).
Defined.

(** ** The TLD filter as an operation on sets *)

Lemma lower_char_eqb_dot c : Ascii.eqb (Py.lower_char c) "." = Ascii.eqb c ".".
Proof. each_char c. Qed.

Lemma contains_lower_dot s : Py.contains "." (Py.lower s) = Py.contains "." s.
Proof. induction s; simpl; [reflexivity|]. now rewrite lower_char_eqb_dot, IHs. Qed.

Lemma last_in_list (l : list string) : l <> [] -> In (List.last l "") l.
Proof.
  induction l as [|x l IH]; [contradiction|]. intros _.
  destruct l as [|y l]; [now left|]. right. apply IH. discriminate.
Qed.

Lemma last_label_no_sep d : Py.contains "." (last_label d) = false.
Proof.
  apply (split_all_parts_clean "." d). apply last_in_list, split_all_nonempty.
Qed.

Lemma last_label_trailing_dot d : last_label (d +:+ ".") = "".
Proof.
  unfold last_label, labels. rewrite split_all_app. simpl.
  now rewrite last_last.
Qed.

Section FilterAlgebra.
Context `{L : Library}.

(** X12.  The filter only selects: its result is a subset of the domain
    set, and filtering a second time with the same TLD set changes
    nothing. *)
Theorem filter_by_tlds_selects (domains tlds : gset string) :
  filter_by_tlds domains tlds ⊆ domains
  /\ filter_by_tlds (filter_by_tlds domains tlds) tlds
     = filter_by_tlds domains tlds.
Proof.
  split.
  - intros d Hd. apply elem_of_filter_by_tlds in Hd. tauto.
  - apply set_eq. intros d. rewrite !elem_of_filter_by_tlds. tauto.
Qed.

Lemma keeps_union (T1 T2 : gset string) d :
  keeps (T1 ∪ T2) d = true <-> keeps T1 d = true \/ keeps T2 d = true.
Proof.
  rewrite !keeps_spec. setoid_rewrite elem_of_union. split.
  - intros [Hne [[H|H]|[Hp [dec [Hd [H|H]]]]]]; eauto 10.
  - intros [[Hne [H|[Hp [dec [Hd H]]]]]|[Hne [H|[Hp [dec [Hd H]]]]]]; eauto 10.
Qed.

(** X13.  The filter works domain by domain and TLD by TLD: filtering a
    union of domain sets gives the union of the filtered sets, and
    filtering with a union of TLD sets gives the union of the results for
    each TLD set. *)
Theorem filter_by_tlds_union (A B T1 T2 : gset string) :
  filter_by_tlds (A ∪ B) T1 = filter_by_tlds A T1 ∪ filter_by_tlds B T1
  /\ filter_by_tlds A (T1 ∪ T2) = filter_by_tlds A T1 ∪ filter_by_tlds A T2.
Proof.
  split; apply set_eq; intros d;
    rewrite !elem_of_union, !elem_of_filter_by_tlds, ?elem_of_union,
            ?keeps_union; tauto.
Qed.

Lemma keeps_dead_entry (T : gset string) t d :
  Py.contains "." t = true \/ has_upper t = true ->
  keeps (T ∖ {[t]}) d = keeps T d.
Proof.
  intros Ht.
  assert (forall s, Py.lower (last_label s) ∈ T ->
                    Py.lower (last_label s) ∈ T ∖ {[t]}) as Hin.
  { intros s Hs. apply elem_of_difference. split; [exact Hs|].
    rewrite elem_of_singleton. intros <-. destruct Ht as [Ht|Ht].
    - rewrite contains_lower_dot, last_label_no_sep in Ht. discriminate.
    - rewrite lower_no_upper in Ht. discriminate. }
  destruct (keeps T d) eqn:E.
  - apply keeps_spec in E. apply keeps_spec.
    destruct E as [Hne [H|[Hp [dec [Hd H]]]]]; eauto 10.
  - destruct (keeps (T ∖ {[t]}) d) eqn:E'; [|reflexivity].
    apply keeps_spec in E'.
    assert (keeps T d = true) as Hk; [|congruence].
    apply keeps_spec.
    destruct E' as [Hne [H|[Hp [dec [Hd H]]]]];
      apply elem_of_difference in H as [H _]; eauto 10.
Qed.

(** X14.  An entry of the TLD set that contains a dot or an upper-case
    letter never matches: the tested label is a single lowercased label,
    so removing such an entry from the TLD set leaves every result
    unchanged. *)
Theorem filter_dead_tld_entry (domains tlds : gset string) (t : string) :
  Py.contains "." t = true \/ has_upper t = true ->
  filter_by_tlds domains (tlds ∖ {[t]}) = filter_by_tlds domains tlds.
Proof.
  intros Ht. apply set_eq. intros d.
  now rewrite !elem_of_filter_by_tlds, (keeps_dead_entry _ _ _ Ht).
Qed.

(** X15.  A domain written with a trailing dot has an empty last label and
    is dropped for every TLD set that does not hold the empty string. *)
Theorem filter_trailing_dot (domains tlds : gset string) (d : string) :
  "" ∉ tlds -> (d +:+ ".") ∉ filter_by_tlds domains tlds.
Proof.
  intros Hn Hin. apply elem_of_filter_by_tlds in Hin as [_ Hk].
  apply keeps_spec in Hk. rewrite last_label_trailing_dot in Hk.
  destruct Hk as [_ [H|[H _]]]; [contradiction|discriminate].
Qed.

End FilterAlgebra.

Lemma filter_dead_tld_entry_witness :
  (Py.contains "." ".com" = true \/ has_upper ".com" = true)
  /\ @filter_by_tlds plain_library {["a.example.com"]} ({[".com"; "org"]} ∖ {[".com"]})
     = @filter_by_tlds plain_library {["a.example.com"]} {[".com"; "org"]}.
Proof.
  split; [left; reflexivity|].
  exact (@filter_dead_tld_entry plain_library {["a.example.com"]} {[".com"; "org"]}
           ".com" (or_introl eq_refl)).
Defined.

Lemma filter_trailing_dot_witness :
  ("" ∉ ({["com"]} : gset string))
  /\ ("example.com" +:+ ".") ∉ @filter_by_tlds plain_library {["example.com."]} {["com"]}.
Proof.
  assert ("" ∉ ({["com"]} : gset string)) as H.
  { intros H. apply elem_of_singleton in H. discriminate H. }
  split; [exact H|].
  exact (@filter_trailing_dot plain_library {["example.com."]} {["com"]}
           "example.com" H).
Defined.

(** ** The TLD list loaders *)

Lemma is_space_lower c : Py.is_space (Py.lower_char c) = Py.is_space c.
Proof. each_char c. Qed.

Lemma lower_empty s : Py.lower s = "" <-> s = "".
Proof. destruct s; simpl; split; intros H; try reflexivity; discriminate. Qed.

Lemma lstrip_ws_lower s : Py.lstrip_ws (Py.lower s) = Py.lower (Py.lstrip_ws s).
Proof.
  induction s as [|c s IH]; [reflexivity|]. simpl. rewrite is_space_lower.
  destruct (Py.is_space c); [exact IH|reflexivity].
Qed.

Lemma rstrip_ws_lower s : Py.rstrip_ws (Py.lower s) = Py.lower (Py.rstrip_ws s).
Proof.
  induction s as [|c s IH]; [reflexivity|]. simpl. rewrite IH, is_space_lower.
  destruct (Py.rstrip_ws s); simpl; [destruct (Py.is_space c)|]; reflexivity.
Qed.

Lemma strip_ws_lower s : Py.strip_ws (Py.lower s) = Py.lower (Py.strip_ws s).
Proof. unfold Py.strip_ws. now rewrite lstrip_ws_lower, rstrip_ws_lower. Qed.

Lemma lstrip_ws_start s : starts_with_space (Py.lstrip_ws s) = false.
Proof.
  induction s as [|c s IH]; [reflexivity|]. simpl.
  destruct (Py.is_space c) eqn:E; [exact IH|]. simpl. exact E.
Qed.

Lemma rstrip_ws_start s :
  starts_with_space s = false -> starts_with_space (Py.rstrip_ws s) = false.
Proof.
  destruct s as [|c s]; [reflexivity|]. simpl. intros H.
  destruct (Py.rstrip_ws s); simpl; [now rewrite H|exact H].
Qed.

Lemma rstrip_ws_end s : ends_with_space (Py.rstrip_ws s) = false.
Proof.
  induction s as [|c s IH]; [reflexivity|]. simpl.
  destruct (Py.rstrip_ws s) as [|x r] eqn:E.
  - destruct (Py.is_space c) eqn:Ec; [reflexivity|]. simpl. exact Ec.
  - exact IH.
Qed.

Lemma lstrip_ws_fixed s : starts_with_space s = false -> Py.lstrip_ws s = s.
Proof. destruct s as [|c s]; [reflexivity|]. simpl. now intros ->. Qed.

Lemma rstrip_ws_fixed s : ends_with_space s = false -> Py.rstrip_ws s = s.
Proof.
  induction s as [|c s IH]; [reflexivity|]. simpl.
  destruct s as [|x s].
  - simpl. now intros ->.
  - intros H. now rewrite (IH H).
Qed.

Lemma strip_ws_ends s :
  starts_with_space (Py.strip_ws s) = false
  /\ ends_with_space (Py.strip_ws s) = false.
Proof.
  unfold Py.strip_ws. split; [|apply rstrip_ws_end].
  apply rstrip_ws_start, lstrip_ws_start.
Qed.

Lemma strip_ws_idem s : Py.strip_ws (Py.strip_ws s) = Py.strip_ws s.
Proof.
  destruct (strip_ws_ends s) as [H1 H2]. unfold Py.strip_ws at 1.
  now rewrite (lstrip_ws_fixed _ H1), (rstrip_ws_fixed _ H2).
Qed.

Lemma prefix_hash c s : String.prefix "#" (String c s) = Ascii.eqb c "#".
Proof.
  cbn [String.prefix]. destruct (Ascii.ascii_dec "#" c) as [<-|Hne].
  - destruct s; reflexivity.
  - symmetry. apply Ascii.eqb_neq. congruence.
Qed.

Lemma lower_char_eqb_hash c : Ascii.eqb (Py.lower_char c) "#" = Ascii.eqb c "#".
Proof. each_char c. Qed.

Lemma is_entry_lower s : is_entry (Py.lower s) = is_entry s.
Proof.
  unfold is_entry. destruct s as [|c s]; [reflexivity|].
  cbn [Py.lower]. rewrite !prefix_hash, lower_char_eqb_hash. reflexivity.
Qed.

Lemma load_tlds_step (acc : gset string) lines :
  foldl (fun tlds line =>
           let s := Py.lower (Py.strip_ws line) in
           if String.eqb s "" || String.prefix "#" s then tlds
           else {[s]} ∪ tlds) acc lines
  = acc ∪ load_tlds lines.
Proof.
  unfold load_tlds. revert acc. induction lines as [|l lines IH]; intros acc.
  - simpl. set_solver.
  - cbn [foldl]. cbv zeta.
    destruct (String.eqb (Py.lower (Py.strip_ws l)) ""
              || String.prefix "#" (Py.lower (Py.strip_ws l))).
    + apply IH.
    + rewrite IH, (IH ({[Py.lower (Py.strip_ws l)]} ∪ ∅)). set_solver.
Qed.

Lemma load_tlds_cons line lines :
  load_tlds (line :: lines)
  = (if is_entry (tld_entry line) then {[tld_entry line]} else ∅)
      ∪ load_tlds lines.
Proof.
  unfold load_tlds at 1. cbn [foldl]. rewrite load_tlds_step.
  unfold is_entry, tld_entry.
  destruct (String.eqb _ "" || String.prefix "#" _); simpl; set_solver.
Qed.

Lemma elem_of_load_tlds lines t :
  t ∈ load_tlds lines
  <-> exists line, In line lines /\ t = tld_entry line /\ is_entry t = true.
Proof.
  induction lines as [|l lines IH].
  - split; [set_solver|]. intros [line [[] _]].
  - rewrite load_tlds_cons, elem_of_union, IH. split.
    + intros [H|[line [Hin [-> He]]]].
      * destruct (is_entry (tld_entry l)) eqn:E; [|set_solver].
        apply elem_of_singleton in H as ->. exists l. split; [now left|auto].
      * exists line. split; [now right|auto].
    + intros [line [[->|Hin] [-> He]]].
      * left. rewrite He. now apply elem_of_singleton.
      * right. exists line. auto.
Qed.

(** X16.  Every entry of a loaded TLD set is clean: it is not empty, is
    not a comment line, has no upper-case letter and no white space at
    either end.  In particular the empty string is never a loaded TLD. *)
Theorem load_tlds_entries_clean (lines : list string) (t : string) :
  t ∈ load_tlds lines ->
  t <> "" /\ String.prefix "#" t = false
  /\ Py.lower t = t /\ has_upper t = false
  /\ Py.strip_ws t = t.
Proof.
  intros H. apply elem_of_load_tlds in H as [line [_ [-> He]]].
  unfold is_entry in He. apply negb_true_iff, orb_false_iff in He as [H1 H2].
  unfold tld_entry in *. split; [now apply String.eqb_neq|].
  split; [exact H2|]. split; [apply lower_idem|].
  split; [apply lower_no_upper|].
  now rewrite strip_ws_lower, strip_ws_idem.
Qed.

Lemma load_tlds_entries_clean_witness :
  "com" ∈ load_tlds ["# Version 2024"; ""; "  COM "; "org"]
  /\ ("com" <> "" /\ String.prefix "#" "com" = false
      /\ Py.lower "com" = "com" /\ has_upper "com" = false
      /\ Py.strip_ws "com" = "com").
Proof.
  assert ("com" ∈ load_tlds ["# Version 2024"; ""; "  COM "; "org"]) as H.
  { refine (bool_decide_unpack _ _). vm_compute. exact I. }
  split; [exact H|].
  exact (load_tlds_entries_clean _ _ H).
Defined.

(** X17.  Loading is line by line: an entry is loaded exactly when some
    line, trimmed and lowercased, equals it and is neither empty nor a
    comment; so the order and the repetition of lines do not matter, and
    the lines of two files give the union of their sets. *)
Theorem load_tlds_lines (l1 l2 : list string) (t : string) :
  (t ∈ load_tlds l1
   <-> exists line, In line l1 /\ t = Py.lower (Py.strip_ws line)
                    /\ t <> "" /\ String.prefix "#" t = false)
  /\ load_tlds (l1 ++ l2)%list = load_tlds l1 ∪ load_tlds l2
  /\ load_tlds (l2 ++ l1)%list = load_tlds (l1 ++ l2)%list.
Proof.
  assert (forall a b, load_tlds (a ++ b)%list = load_tlds a ∪ load_tlds b) as Happ.
  { intros a b. apply set_eq. intros x.
    rewrite elem_of_union, !elem_of_load_tlds. split.
    - intros [line [Hin H]]. apply in_app_or in Hin as [Hin|Hin]; eauto.
    - intros [[line [Hin H]]|[line [Hin H]]]; exists line;
        (split; [apply in_or_app; auto|exact H]). }
  split; [|split; [apply Happ|rewrite !Happ; set_solver]].
  rewrite elem_of_load_tlds. unfold is_entry, tld_entry. split.
  - intros [line [Hin [-> He]]]. exists line.
    apply negb_true_iff, orb_false_iff in He as [H1 H2].
    repeat split; auto. now apply String.eqb_neq.
  - intros [line [Hin [-> [H1 H2]]]]. exists line.
    repeat split; auto. apply negb_true_iff, orb_false_iff.
    split; [now apply String.eqb_neq|exact H2].
Qed.

Lemma parse_iana_step (acc : gset string) lines :
  foldl (fun tlds line =>
           let line := Py.strip_ws line in
           if String.eqb line "" || String.prefix "#" line then tlds
           else {[Py.lower line]} ∪ tlds) acc lines
  = acc ∪ load_tlds lines.
Proof.
  revert acc. induction lines as [|l lines IH]; intros acc.
  - simpl. set_solver.
  - cbn [foldl]. cbv zeta. rewrite IH, load_tlds_cons.
    unfold tld_entry. rewrite is_entry_lower. unfold is_entry.
    destruct (String.eqb (Py.strip_ws l) "" || String.prefix "#" (Py.strip_ws l));
      cbn [negb]; set_solver.
Qed.

(** X18.  The downloaded list and a local file are read in the same way:
    the parsing loop of [fetch_iana_tlds] and [load_tlds_from_file] give
    the same set for the same lines, although one tests a line before
    lowercasing it and the other after. *)
Theorem parse_iana_lines_load (lines : list string) :
  parse_iana_lines lines = load_tlds lines.
Proof. unfold parse_iana_lines. rewrite parse_iana_step. set_solver. Qed.

Lemma load_tlds_no_empty lines : "" ∉ load_tlds lines.
Proof.
  intros H. apply elem_of_load_tlds in H as [line [_ [_ He]]]. discriminate He.
Qed.

(** X19.  With a TLD set read by the loader, which never holds the empty
    string, a domain is kept if and only if it is in the domain set and
    its lowercased last label is a loaded TLD, or that label starts with
    [xn--] and the decoded name's lowercased last label is a loaded TLD;
    the empty candidate needs no separate mention. *)
Theorem filter_on_loaded_tlds `{L : Library} (lines : list string)
    (domains : gset string) (d : string) :
  d ∈ filter_by_tlds domains (load_tlds lines)
  <-> d ∈ domains
      /\ (Py.lower (last_label d) ∈ load_tlds lines
          \/ (String.prefix "xn--" (Py.lower (last_label d)) = true
              /\ exists decoded,
                   idna_decode d = Some decoded
                   /\ Py.lower (last_label decoded) ∈ load_tlds lines)).
Proof.
  rewrite elem_of_filter_spec. split; [tauto|].
  intros [Hd H]. split; [|auto]. intros ->.
  destruct H as [H|[H _]]; [|discriminate H].
  now apply (load_tlds_no_empty lines).
Qed.

(** ** The pattern synthesizer *)

Lemma size_wildcard_labels (domains : gset string) :
  size (set_fold (fun d labels => {[wildcard_label d]} ∪ labels)
                 (∅ : gset string) domains)
  <= size domains.
Proof.
  apply (set_fold_ind_L
           (fun (labels : gset string) (X : gset string) => size labels <= size X)).
  - reflexivity.
  - intros x X labels Hx IH.
    rewrite (size_union {[x]} X) by set_solver.
    rewrite size_union_alt, !size_singleton.
    pose proof (subseteq_size (labels ∖ {[wildcard_label x]}) labels) as Hs.
    assert (size (labels ∖ {[wildcard_label x]}) <= size labels)
      by (apply Hs; set_solver).
    lia.
Qed.

Lemma suggest_wildcards_length (domains : gset string) :
  List.length (suggest_wildcards domains)
  = size (set_fold (fun d labels => {[wildcard_label d]} ∪ labels)
                   (∅ : gset string) domains).
Proof.
  unfold suggest_wildcards, sorted.
  rewrite (Permutation_length (merge_sort_Permutation _ _)).
  now rewrite length_fmap.
Qed.

(** X20.  There is at most one wildcard suggestion per domain, and none
    exactly when the domain set is empty. *)
Theorem suggest_wildcards_count (domains : gset string) :
  List.length (suggest_wildcards domains) <= size domains
  /\ (suggest_wildcards domains = [] <-> domains = ∅).
Proof.
  split.
  - rewrite suggest_wildcards_length. apply size_wildcard_labels.
  - split.
    + intros H. apply (f_equal (@List.length string)) in H.
      rewrite suggest_wildcards_length in H. simpl in H.
      apply size_empty_inv in H. apply set_eq. intros d. split; [|set_solver].
      intros Hd. exfalso.
      assert (wildcard_label d ∈
                set_fold (fun d labels => {[wildcard_label d]} ∪ labels)
                         (∅ : gset string) domains) as Hw.
      { apply elem_of_wildcard_labels. now exists d. }
      apply H in Hw. set_solver.
    + intros ->. reflexivity.
Qed.

Lemma backslash_special : Re.is_special "\" = true.
Proof. reflexivity. Qed.

Lemma escape_inj a b : Re.escape a = Re.escape b -> a = b.
Proof.
  revert b. induction a as [|x a IH]; intros [|y b]; simpl.
  - reflexivity.
  - destruct (Re.is_special y); discriminate.
  - destruct (Re.is_special x); discriminate.
  - destruct (Re.is_special x) eqn:Ex, (Re.is_special y) eqn:Ey; intros H.
    + injection H as -> H. f_equal. now apply IH.
    + injection H as <- _. rewrite backslash_special in Ey. discriminate.
    + injection H as -> _. rewrite backslash_special in Ex. discriminate.
    + injection H as -> H. f_equal. now apply IH.
Qed.

Lemma escape_plain s :
  all_chars (fun c => negb (Re.is_special c)) s = true -> Re.escape s = s.
Proof.
  induction s as [|c s IH]; [reflexivity|]. simpl.
  intros H. apply andb_true_iff in H as [Hc Hs]. apply negb_true_iff in Hc.
  now rewrite Hc, IH.
Qed.

(** X21.  The regex built for a label determines the label: two different
    labels never give the same regex.  A label without any character that
    is special in a pattern appears in its regex unchanged. *)
Theorem build_regex_for_label_inj (a b : string) :
  (build_regex_for_label a = build_regex_for_label b -> a = b)
  /\ (all_chars (fun c => negb (Re.is_special c)) a = true ->
      build_regex_for_label a = "(^|\.)" +:+ a +:+ "\.[A-Za-z0-9.-]+$").
Proof.
  split.
  - unfold build_regex_for_label. intros H.
    apply String.app_inj in H. apply append_suffix_inj in H.
    now apply escape_inj.
  - intros H. unfold build_regex_for_label. now rewrite (escape_plain _ H).
Qed.

Lemma build_regex_for_label_inj_witness :
  all_chars (fun c => negb (Re.is_special c)) "example" = true
  /\ build_regex_for_label "example" = "(^|\.)example\.[A-Za-z0-9.-]+$".
Proof.
  split; [reflexivity|].
  exact (proj2 (build_regex_for_label_inj "example" "") eq_refl).
Defined.
